(** * movie_scraper.py: a shallow embedding and its properties

    The program scrapes a paginated listing: for each page index it drives a
    browser to render the page, parses the markup, extracts one record per
    item container and finally writes the records to a CSV file.

    Conventions of the embedding.
    - A Python [str] is a [string]; a character is a code point below 256.
    - A Python [int] is a [Z].
    - The movie dictionary has the four fixed keys of the source and is a
      record.
    - Code that may raise returns a [result]; code that also mutates the
      accumulator, binds locals or prints runs in the monad [M].
    - Exceptions are those derived from [Exception]; [print] and
      [time.sleep] are recorded as events and never fail. *)

From Stdlib Require Import String Ascii List ZArith Bool Lia DecimalString.
Import ListNotations.

Local Open Scope string_scope.
Local Open Scope list_scope.
Local Open Scope Z_scope.

Notation "a +++ b" := (String.append a b) (at level 60, right associativity).

(** ** Exceptions and results *)

Inductive exn : Type :=
| ValueError (msg : string)
| WebDriverException (msg : string)
| TimeoutException (msg : string)
| IOError (msg : string)
| UnboundLocalError (var : string).

Inductive result (A : Type) : Type :=
| Ok (a : A)
| Raise (e : exn).

Arguments Ok {A} a.
Arguments Raise {A} e.

Definition rbind {A B : Type} (r : result A) (k : A -> result B) : result B :=
  match r with
  | Ok a => k a
  | Raise e => Raise e
  end.

Declare Scope result_scope.
Delimit Scope result_scope with result.
Notation "x <- r ;; k" := (rbind r (fun x => k))
  (at level 61, r at next level, right associativity) : result_scope.
Notation "r ;; k" := (rbind r (fun _ => k))
  (at level 61, right associativity) : result_scope.

(** ** Python string methods used by the program *)

Module Str.

Definition code (c : ascii) : nat := nat_of_ascii c.

(** [str.isspace] on one character (code points below 256). *)
Definition isspace (c : ascii) : bool :=
  let n := code c in
  (((9 <=? n) && (n <=? 13)) || ((28 <=? n) && (n <=? 32))
   || (n =? 133) || (n =? 160))%nat.

Definition isascii (c : ascii) : bool := (code c <? 128)%nat.

Definition isalpha_ascii (c : ascii) : bool :=
  let n := code c in
  (((65 <=? n) && (n <=? 90)) || ((97 <=? n) && (n <=? 122)))%nat.

Definition isdigit_ascii (c : ascii) : bool :=
  let n := code c in ((48 <=? n) && (n <=? 57))%nat.

Definition lower_char (c : ascii) : ascii :=
  let n := code c in
  if ((65 <=? n) && (n <=? 90))%nat then ascii_of_nat (n + 32) else c.

Fixpoint lower (s : string) : string :=
  match s with
  | EmptyString => EmptyString
  | String c r => String (lower_char c) (lower r)
  end.

Fixpoint forallb (p : ascii -> bool) (s : string) : bool :=
  match s with
  | EmptyString => true
  | String c r => p c && forallb p r
  end.

Fixpoint contains (c : ascii) (s : string) : bool :=
  match s with
  | EmptyString => false
  | String a r => Ascii.eqb a c || contains c r
  end.

(** [s.lstrip(chars)] with the set of characters given as a predicate. *)
Fixpoint lstrip_by (p : ascii -> bool) (s : string) : string :=
  match s with
  | EmptyString => EmptyString
  | String c r => if p c then lstrip_by p r else s
  end.

Fixpoint rstrip_by (p : ascii -> bool) (s : string) : string :=
  match s with
  | EmptyString => EmptyString
  | String c r =>
      match rstrip_by p r with
      | EmptyString => if p c then EmptyString else String c EmptyString
      | r' => String c r'
      end
  end.

Definition strip_by (p : ascii -> bool) (s : string) : string :=
  rstrip_by p (lstrip_by p s).

(** [s.strip()] *)
Definition strip (s : string) : string := strip_by isspace s.

(** [s.startswith(p)] *)
Definition startswith (p s : string) : bool := String.prefix p s.

(** [s.replace(c, "")] for a one-character [c]. *)
Fixpoint remove_char (p : ascii -> bool) (s : string) : string :=
  match s with
  | EmptyString => EmptyString
  | String c r => if p c then remove_char p r else String c (remove_char p r)
  end.

(** [s.partition(c)] when [c] occurs: the text before the first [c] and the
    text after it. *)
Fixpoint partition (c : ascii) (s : string) : option (string * string) :=
  match s with
  | EmptyString => None
  | String a r =>
      if Ascii.eqb a c then Some (EmptyString, r)
      else match partition c r with
           | Some (h, t) => Some (String a h, t)
           | None => None
           end
  end.

(** The text before the last [c] and the text from that [c] on. *)
Fixpoint rpartition_keep (c : ascii) (s : string) : option (string * string) :=
  match s with
  | EmptyString => None
  | String a r =>
      match rpartition_keep c r with
      | Some (h, t) => Some (String a h, t)
      | None => if Ascii.eqb a c then Some (EmptyString, s) else None
      end
  end.

(** The longest prefix without a character of [p], and the rest. *)
Fixpoint span_until (p : ascii -> bool) (s : string) : string * string :=
  match s with
  | EmptyString => (EmptyString, EmptyString)
  | String a r =>
      if p a then (EmptyString, s)
      else let (h, t) := span_until p r in (String a h, t)
  end.

(** [s.split(c)] *)
Fixpoint split (c : ascii) (s : string) : list string :=
  match s with
  | EmptyString => [EmptyString]
  | String a r =>
      if Ascii.eqb a c then EmptyString :: split c r
      else match split c r with
           | h :: t => String a h :: t
           | [] => [String a EmptyString]
           end
  end.

(** [sep.join(l)] *)
Definition join (sep : string) (l : list string) : string :=
  String.concat sep l.

Definition nonempty (s : string) : bool :=
  match s with EmptyString => false | _ => true end.

Fixpoint drop (n : nat) (s : string) : string :=
  match n, s with
  | O, _ => s
  | S n', String _ r => drop n' r
  | S _, EmptyString => EmptyString
  end.

(** [str(n)] for an integer. *)
Definition of_int (n : Z) : string := NilZero.string_of_int (Z.to_int n).

End Str.

(** ** urllib.parse

    [urlsplit], [urlparse], [urlunsplit], [urlunparse] and [urljoin] as in
    CPython 3.12, on [str] arguments.  Two validations of the network
    location consult the [ipaddress] and [unicodedata] modules; they are
    taken as given through [HostValidation] and used only where the library
    calls them. *)

Class HostValidation : Type := {
  (** [_check_bracketed_host]: raises [ValueError] for a bracketed host that
      is neither an IPv6 nor an IPvFuture address. *)
  check_bracketed_host : string -> result unit;
  (** The NFKC check of [_checknetloc], reached for a non-ASCII netloc. *)
  checknetloc_nfkc : string -> result unit
}.

Module Urllib.

Definition uses_relative : list string :=
  [""; "ftp"; "http"; "gopher"; "nntp"; "imap"; "wais"; "file"; "https";
   "shttp"; "mms"; "prospero"; "rtsp"; "rtsps"; "rtspu"; "sftp"; "svn";
   "svn+ssh"; "ws"; "wss"].

Definition uses_netloc : list string :=
  [""; "ftp"; "http"; "gopher"; "nntp"; "telnet"; "imap"; "wais"; "file";
   "mms"; "https"; "shttp"; "snews"; "prospero"; "rtsp"; "rtsps"; "rtspu";
   "rsync"; "svn"; "svn+ssh"; "sftp"; "nfs"; "git"; "git+ssh"; "ws"; "wss";
   "itms-services"].

Definition uses_params : list string :=
  [""; "ftp"; "hdl"; "prospero"; "http"; "imap"; "https"; "shttp"; "rtsp";
   "rtsps"; "rtspu"; "sip"; "sips"; "mms"; "sftp"; "tel"].

Definition mem (s : string) (l : list string) : bool :=
  existsb (String.eqb s) l.

Definition scheme_char (c : ascii) : bool :=
  Str.isalpha_ascii c || Str.isdigit_ascii c
  || Ascii.eqb c "+" || Ascii.eqb c "-" || Ascii.eqb c ".".

(** [_WHATWG_C0_CONTROL_OR_SPACE] *)
Definition c0_control_or_space (c : ascii) : bool := (Str.code c <=? 32)%nat.

(** [_UNSAFE_URL_BYTES_TO_REMOVE]: tab, carriage return, line feed. *)
Definition unsafe_byte (c : ascii) : bool :=
  let n := Str.code c in ((n =? 9) || (n =? 13) || (n =? 10))%nat.

Record SplitResult : Type := mkSplit {
  s_scheme : string;
  s_netloc : string;
  s_path : string;
  s_query : string;
  s_fragment : string
}.

Record ParseResult : Type := mkParse {
  scheme : string;
  netloc : string;
  path : string;
  params : string;
  query : string;
  fragment : string
}.

Definition netloc_delim (c : ascii) : bool :=
  Ascii.eqb c "/" || Ascii.eqb c "?" || Ascii.eqb c "#".

(** [_splitnetloc(url, 2)] on a [url] that begins with two slashes. *)
Definition splitnetloc (url : string) : string * string :=
  Str.span_until netloc_delim (Str.drop 2 url).

(** The scheme test of [urlsplit]: the text before the first colon is a
    scheme when it is not empty, starts with an ASCII letter and consists of
    scheme characters. *)
Definition split_scheme (default url : string) : string * string :=
  match Str.partition ":" url with
  | Some (String c0 pre, post) =>
      if Str.isascii c0 && Str.isalpha_ascii c0
         && Str.forallb scheme_char (String c0 pre)
      then (Str.lower (String c0 pre), post)
      else (default, url)
  | _ => (default, url)
  end.

Section WithValidation.
Context {HV : HostValidation}.

Local Open Scope result_scope.

Definition check_brackets (nl : string) : result unit :=
  let lb := Str.contains "[" nl in
  let rb := Str.contains "]" nl in
  if (lb && negb rb) || (rb && negb lb) then
    Raise (ValueError "Invalid IPv6 URL")
  else if lb && rb then
    let after :=
      match Str.partition "[" nl with Some (_, t) => t | None => "" end in
    let host :=
      match Str.partition "]" after with Some (h, _) => h | None => after end in
    check_bracketed_host host
  else Ok tt.

Definition checknetloc (nl : string) : result unit :=
  if negb (Str.nonempty nl) || Str.forallb Str.isascii nl then Ok tt
  else checknetloc_nfkc nl.

Definition urlsplit (url0 scheme0 : string) : result SplitResult :=
  let url := Str.lstrip_by c0_control_or_space url0 in
  let scheme0 := Str.strip_by c0_control_or_space scheme0 in
  let url := Str.remove_char unsafe_byte url in
  let scheme0 := Str.remove_char unsafe_byte scheme0 in
  let (sch, url) := split_scheme scheme0 url in
  nl_url <-
    (if Str.startswith "//" url then
       let (nl, rest) := splitnetloc url in
       check_brackets nl ;; Ok (nl, rest)
     else Ok ("", url)) ;;
  let (nl, url) := (nl_url : string * string) in
  let (url, frag) :=
    match Str.partition "#" url with
    | Some (u, f) => (u, f)
    | None => (url, "")
    end in
  let (url, qry) :=
    match Str.partition "?" url with
    | Some (u, q) => (u, q)
    | None => (url, "")
    end in
  checknetloc nl ;;
  Ok (mkSplit sch nl url qry frag).

(** [_splitparams] *)
Definition splitparams (url : string) : string * string :=
  if Str.contains "/" url then
    match Str.rpartition_keep "/" url with
    | Some (h, t) =>
        match Str.partition ";" t with
        | Some (a, b) => (h +++ a, b)
        | None => (url, "")
        end
    | None => (url, "")
    end
  else
    match Str.partition ";" url with
    | Some (a, b) => (a, b)
    | None => (url, "")
    end.

Definition urlparse (url scheme0 : string) : result ParseResult :=
  sr <- urlsplit url scheme0 ;;
  let (u, p) :=
    if mem (s_scheme sr) uses_params && Str.contains ";" (s_path sr)
    then splitparams (s_path sr)
    else (s_path sr, "") in
  Ok (mkParse (s_scheme sr) (s_netloc sr) u p (s_query sr) (s_fragment sr)).

End WithValidation.

Definition urlunsplit (sch nl url qry frag : string) : string :=
  let url :=
    if Str.nonempty nl
       || (Str.nonempty sch && mem sch uses_netloc
           && negb (Str.startswith "//" url))
    then
      let url :=
        if Str.nonempty url && negb (Str.startswith "/" url)
        then "/" +++ url else url in
      "//" +++ nl +++ url
    else url in
  let url := if Str.nonempty sch then sch +++ ":" +++ url else url in
  let url := if Str.nonempty qry then url +++ "?" +++ qry else url in
  if Str.nonempty frag then url +++ "#" +++ frag else url.

Definition urlunparse (p : ParseResult) : string :=
  let url :=
    if Str.nonempty (params p) then path p +++ ";" +++ params p else path p in
  urlunsplit (scheme p) (netloc p) url (query p) (fragment p).

(** [segments[1:-1] = filter(None, segments[1:-1])] *)
Definition filter_middle (segments : list string) : list string :=
  match segments with
  | [] => []
  | [x] => [x]
  | x :: rest =>
      x :: filter Str.nonempty (removelast rest) ++ [last rest ""]
  end.

(** The loop of [urljoin] that removes dot segments. *)
Definition resolve_segments (segments : list string) : list string :=
  fold_left
    (fun resolved seg =>
       if String.eqb seg ".." then removelast resolved
       else if String.eqb seg "." then resolved
       else resolved ++ [seg])
    segments [].

Section WithValidation.
Context {HV : HostValidation}.

Local Open Scope result_scope.

Definition urljoin (base url : string) : result string :=
  if negb (Str.nonempty base) then Ok url
  else if negb (Str.nonempty url) then Ok base
  else
    b <- urlparse base "" ;;
    u <- urlparse url (scheme b) ;;
    if negb (String.eqb (scheme u) (scheme b))
       || negb (mem (scheme u) uses_relative)
    then Ok url
    else if mem (scheme u) uses_netloc && Str.nonempty (netloc u)
    then Ok (urlunparse u)
    else
      let nl := if mem (scheme u) uses_netloc then netloc b else netloc u in
      if negb (Str.nonempty (path u)) && negb (Str.nonempty (params u)) then
        let qry := if Str.nonempty (query u) then query u else query b in
        Ok (urlunparse
              (mkParse (scheme u) nl (path b) (params b) qry (fragment u)))
      else
        let base_parts := Str.split "/" (path b) in
        let base_parts :=
          if Str.nonempty (last base_parts "") then removelast base_parts
          else base_parts in
        let segments :=
          if Str.startswith "/" (path u) then Str.split "/" (path u)
          else filter_middle (base_parts ++ Str.split "/" (path u)) in
        let resolved := resolve_segments segments in
        let resolved :=
          if String.eqb (last segments "") "."
             || String.eqb (last segments "") ".."
          then resolved ++ [""] else resolved in
        let joined := Str.join "/" resolved in
        let joined := if Str.nonempty joined then joined else "/" in
        Ok (urlunparse
              (mkParse (scheme u) nl joined (params u) (query u) (fragment u))).

End WithValidation.

End Urllib.

(** A validation that accepts every host: enough to run the examples, none
    of which reaches it with a host the library would refuse. *)
Definition lenient_validation : HostValidation :=
  {| check_bracketed_host := fun _ => Ok tt;
     checknetloc_nfkc := fun _ => Ok tt |}.

(** ** BeautifulSoup

    The document tree that [BeautifulSoup(page_source, 'html.parser')]
    builds.  A string node is either text that [get_text] returns
    ([NavigableString], [CData]) or one it skips ([Comment], [Script],
    [Stylesheet], ...).  A tag carries its single-valued attributes as a
    dictionary and the tokens of its [class] attribute as a list: [class]
    is the only multi-valued attribute the program asks for, and [src] and
    [title] are single-valued under this parser. *)

Module Bs4.

#[warnings="-register-all"]
Inductive Node : Type :=
| NavigableString (s : string)
| OtherString (s : string)
| Tag (tag_name : string) (attrs : list (string * string))
      (classes : list string) (contents : list Node).

(** [tag.descendants]: all nodes below the tag, in document order. *)
Fixpoint descendants (n : Node) : list Node :=
  match n with
  | Tag _ _ _ cs => flat_map (fun c => c :: descendants c) cs
  | _ => []
  end.

(** The test of [find(name, class_=c)] and [find_all(name, class_=c)]. *)
Definition matches (tag_name : string) (class_ : option string) (n : Node)
  : bool :=
  match n with
  | Tag nm _ cls _ =>
      String.eqb nm tag_name
      && match class_ with
         | None => true
         | Some c => existsb (String.eqb c) cls
         end
  | _ => false
  end.

Definition find_all (tag_name : string) (class_ : option string) (n : Node)
  : list Node :=
  filter (matches tag_name class_) (descendants n).

Definition find (tag_name : string) (class_ : option string) (n : Node)
  : option Node :=
  match find_all tag_name class_ n with
  | [] => None
  | e :: _ => Some e
  end.

Fixpoint lookup (key : string) (d : list (string * string)) : option string :=
  match d with
  | [] => None
  | (k, v) :: r => if String.eqb k key then Some v else lookup key r
  end.

(** [tag.get(key)] *)
Definition get (key : string) (n : Node) : option string :=
  match n with
  | Tag _ attrs _ _ => lookup key attrs
  | _ => None
  end.

Definition text_of (n : Node) : list string :=
  match n with
  | NavigableString s => [s]
  | _ => []
  end.

(** [tag.get_text(strip=True)]: every text string below the tag is
    stripped, the empty ones are dropped, the rest are concatenated. *)
Definition get_text_strip (n : Node) : string :=
  Str.join ""
    (filter Str.nonempty (map Str.strip (flat_map text_of (descendants n)))).

End Bs4.

Import Bs4.

(** ** The program state *)

(** The dictionary appended to [movies]. *)
Record movie : Type := mkMovie {
  name : string;
  image_url : string;
  rating : string;
  genre : string
}.

(** One constructor per [print] call of the source, with the values the
    message is formatted from. *)
Inductive message : Type :=
| MsgScraping (page_num : Z) (url : string)
| MsgNoItems (page_num : Z)
| MsgFound (movie_name rating : string)
| MsgItemError (e : exn)
| MsgPageError (page_num : Z) (e : exn)
| MsgNoMovies
| MsgSaved (count : nat) (filename : string)
| MsgSaveError (e : exn).

Inductive event : Type :=
| Print (m : message)
| InitDriver
| DriverGet (url : string)
| DriverQuit
| Sleep (secs : Z).

(** What the browser does for one page: [init_driver] raises, or the session
    starts and loading raises ([driver.get], the wait for the item
    containers, [page_source]), or the rendered markup is parsed. *)
Inductive render : Type :=
| LaunchFails (e : exn)
| LoadFails (e : exn)
| Rendered (soup : Node).

(** The accumulator, the trace of effects, and the locals of
    [scrape_movies] that the item loop binds ([None]: not bound yet). *)
Record state : Type := mkState {
  movies : list movie;
  events : list event;
  driver : bool;
  l_image_url : option string;
  l_movie_name : option string;
  l_rating : option string;
  l_genre : option string
}.

Definition initial_state : state :=
  mkState [] [] false None None None None.

Definition M (A : Type) : Type := state -> state * result A.

Definition ret {A : Type} (a : A) : M A := fun st => (st, Ok a).

Definition bind {A B : Type} (m : M A) (k : A -> M B) : M B :=
  fun st =>
    match m st with
    | (st', Ok a) => k a st'
    | (st', Raise e) => (st', Raise e)
    end.

Definition lift {A : Type} (r : result A) : M A := fun st => (st, r).

Definition raise {A : Type} (e : exn) : M A := fun st => (st, Raise e).

(** [try: body except Exception as e: handler] *)
Definition try_except {A : Type} (body : M A) (handler : exn -> M A) : M A :=
  fun st =>
    match body st with
    | (st', Raise e) => handler e st'
    | r => r
    end.

(** [try: body finally: cleanup] *)
Definition finally {A : Type} (body : M A) (cleanup : M unit) : M A :=
  fun st =>
    match body st with
    | (st', r) =>
        match cleanup st' with
        | (st'', Ok _) => (st'', r)
        | (st'', Raise e) => (st'', Raise e)
        end
    end.

Declare Scope monad_scope.
Delimit Scope monad_scope with monad.
Notation "x <- m ;; k" := (bind m (fun x => k))
  (at level 61, m at next level, right associativity) : monad_scope.
Notation "m ;; k" := (bind m (fun _ => k))
  (at level 61, right associativity) : monad_scope.

(** [for x in l: body] *)
Fixpoint for_each {A : Type} (l : list A) (body : A -> M unit) : M unit :=
  match l with
  | [] => ret tt
  | x :: r => bind (body x) (fun _ => for_each r body)
  end.

(** [range(a, b)] *)
Definition range (a b : Z) : list Z :=
  map (fun i => a + Z.of_nat i) (seq 0 (Z.to_nat (b - a))).

Definition emit (e : event) : M unit :=
  fun st =>
    (mkState (movies st) (events st ++ [e]) (driver st) (l_image_url st)
       (l_movie_name st) (l_rating st) (l_genre st), Ok tt).

Definition print (m : message) : M unit := emit (Print m).

Definition append_movie (m : movie) : M unit :=
  fun st =>
    (mkState (movies st ++ [m]) (events st) (driver st) (l_image_url st)
       (l_movie_name st) (l_rating st) (l_genre st), Ok tt).

Definition set_driver (d : bool) : M unit :=
  fun st =>
    (mkState (movies st) (events st) d (l_image_url st) (l_movie_name st)
       (l_rating st) (l_genre st), Ok tt).

Definition set_image_url (v : string) : M unit :=
  fun st =>
    (mkState (movies st) (events st) (driver st) (Some v) (l_movie_name st)
       (l_rating st) (l_genre st), Ok tt).

Definition set_movie_name (v : string) : M unit :=
  fun st =>
    (mkState (movies st) (events st) (driver st) (l_image_url st) (Some v)
       (l_rating st) (l_genre st), Ok tt).

Definition set_rating (v : string) : M unit :=
  fun st =>
    (mkState (movies st) (events st) (driver st) (l_image_url st)
       (l_movie_name st) (Some v) (l_genre st), Ok tt).

Definition set_genre (v : string) : M unit :=
  fun st =>
    (mkState (movies st) (events st) (driver st) (l_image_url st)
       (l_movie_name st) (l_rating st) (Some v), Ok tt).

(** Reading a local; an unbound one raises. *)
Definition read (var : string) (proj : state -> option string) : M string :=
  fun st =>
    match proj st with
    | Some v => (st, Ok v)
    | None => (st, Raise (UnboundLocalError var))
    end.

Definition get_driver : M bool := fun st => (st, Ok (driver st)).

Definition BASE_URL : string := "https://ssr1.scrape.center".

(** ** scrape_movies *)

Section Scraper.
Context {HV : HostValidation}.

Local Open Scope monad_scope.

(** Lines 80-85: the image URL. *)
Definition extract_image_url (item : Node) : M unit :=
  let img_elem := find "img" None item in
  set_image_url "N/A" ;;
  match img_elem with
  | Some e =>
      match get "src" e with
      | Some src =>
          if Str.nonempty src then
            set_image_url src ;;
            if Str.nonempty src && negb (Str.startswith "http" src) then
              u <- lift (Urllib.urljoin BASE_URL src) ;;
              set_image_url u
            else ret tt
          else ret tt
      | None => ret tt
      end
  | None => ret tt
  end.

(** Lines 88-97: the movie name. *)
Definition extract_movie_name (item : Node) : M unit :=
  let name_elem := find "a" (Some "name") item in
  let name_elem :=
    match name_elem with
    | Some e => Some e
    | None => find "a" None item
    end in
  set_movie_name "N/A" ;;
  match name_elem with
  | Some e =>
      match get "title" e with
      | Some t =>
          if Str.nonempty t then set_movie_name (Str.strip t)
          else set_movie_name (get_text_strip e)
      | None => set_movie_name (get_text_strip e)
      end
  | None => ret tt
  end.

(** Lines 100-103: the rating. *)
Definition extract_rating (item : Node) : M unit :=
  let rating_elem := find "p" (Some "score") item in
  set_rating "N/A" ;;
  match rating_elem with
  | Some e => set_rating (get_text_strip e)
  | None => ret tt
  end.

(** Lines 106-110: the genre. *)
Definition extract_genre (item : Node) : M unit :=
  set_genre "N/A" ;;
  let categories := find_all "button" (Some "category") item in
  match categories with
  | [] => ret tt
  | _ =>
      let genre_list := map get_text_strip categories in
      set_genre (Str.join " " genre_list)
  end.

(** Lines 113-121: the inclusion gate. *)
Definition add_if_valid_image : M unit :=
  image_url <- read "image_url" l_image_url ;;
  if negb (String.eqb image_url "N/A") then
    movie_name <- read "movie_name" l_movie_name ;;
    rating <- read "rating" l_rating ;;
    genre <- read "genre" l_genre ;;
    append_movie (mkMovie movie_name image_url rating genre) ;;
    print (MsgFound movie_name rating)
  else ret tt.

(** Lines 79-121: what the item loop tries for one item. *)
Definition item_body (item : Node) : M unit :=
  extract_image_url item ;;
  extract_movie_name item ;;
  extract_rating item ;;
  extract_genre item ;;
  add_if_valid_image.

(** Lines 78-125: one turn of the item loop, with its handler. *)
Definition item_iteration (item : Node) : M unit :=
  try_except (item_body item) (fun e => print (MsgItemError e)).

Definition page_url (page_num : Z) : string :=
  BASE_URL +++ "/page/" +++ Str.of_int page_num.

(** Lines 54-140: the body of the page loop. *)
Definition page_iteration (web : string -> render) (num_pages page_num : Z)
  : M unit :=
  let url := page_url page_num in
  print (MsgScraping page_num url) ;;
  set_driver false ;;
  finally
    (try_except
       (emit InitDriver ;;
        match web url with
        | LaunchFails e => raise e
        | LoadFails e =>
            set_driver true ;; emit (DriverGet url) ;; raise e
        | Rendered soup =>
            set_driver true ;;
            emit (DriverGet url) ;;
            let movie_items := find_all "div" (Some "item") soup in
            match movie_items with
            | [] => print (MsgNoItems page_num)
            | _ => ret tt
            end ;;
            for_each movie_items item_iteration ;;
            if page_num <? num_pages then emit (Sleep 1) else ret tt
        end)
       (fun e => print (MsgPageError page_num e)))
    (d <- get_driver ;; if (d : bool) then emit DriverQuit else ret tt).

(** The whole function: the final state and what is returned. *)
Definition scrape_movies_run (web : string -> render) (num_pages : Z)
  : state * result (list movie) :=
  (for_each (range 1 (num_pages + 1)) (page_iteration web num_pages) ;;
   fun st => (st, Ok (movies st))) initial_state.

Definition scrape_movies (web : string -> render) (num_pages : Z)
  : result (list movie) :=
  snd (scrape_movies_run web num_pages).

End Scraper.

(** ** The csv module

    [csv.DictWriter] with the default dialect: comma delimiter, the double
    quote as quote character with doubling, minimal quoting, and carriage
    return and line feed as line terminator. *)

Module Csv.

Definition quotechar : ascii := "034"%char.
Definition CR : ascii := "013"%char.
Definition LF : ascii := "010"%char.
Definition delimiter : string := ",".
Definition lineterminator : string := String CR (String LF EmptyString).

(** A character that makes the writer quote the field. *)
Definition special (c : ascii) : bool :=
  Ascii.eqb c "," || Ascii.eqb c quotechar || Ascii.eqb c CR || Ascii.eqb c LF.

Fixpoint needs_quotes (field : string) : bool :=
  match field with
  | EmptyString => false
  | String c r => special c || needs_quotes r
  end.

Fixpoint double_quotes (field : string) : string :=
  match field with
  | EmptyString => EmptyString
  | String c r =>
      if Ascii.eqb c quotechar then String c (String c (double_quotes r))
      else String c (double_quotes r)
  end.

Definition format_field (field : string) : string :=
  if needs_quotes field
  then String quotechar (double_quotes field +++ String quotechar EmptyString)
  else field.

(** [writer.writerow(fields)] *)
Definition format_row (fields : list string) : string :=
  Str.join delimiter (map format_field fields) +++ lineterminator.

End Csv.

Definition fieldnames : list string := ["name"; "image_url"; "rating"; "genre"].

(** [DictWriter._dict_to_list]: the values in the order of [fieldnames]. *)
Definition dict_to_list (m : movie) : list string :=
  [name m; image_url m; rating m; genre m].

(** Text files by name, and the names that cannot be opened for writing
    with the message of the [IOError] that [open] raises for them. *)
Record disk : Type := mkDisk {
  files : string -> option string;
  denied : string -> option string
}.

Definition write_file (d : disk) (filename text : string) : disk :=
  mkDisk
    (fun f => if String.eqb f filename then Some text else files d f)
    (denied d).

(** ** save_to_csv

    Returns the disk afterwards and what was printed.  Once the file is
    open, the writes succeed. *)
Definition save_to_csv (movies : list movie) (filename : string) (d : disk)
  : disk * list event :=
  match movies with
  | [] => (d, [Print MsgNoMovies])
  | _ =>
      match denied d filename with
      | Some msg => (d, [Print (MsgSaveError (IOError msg))])
      | None =>
          let header := Csv.format_row fieldnames in
          let rows := map (fun m => Csv.format_row (dict_to_list m)) movies in
          (write_file d filename (header +++ Str.join "" rows),
           [Print (MsgSaved (length movies) filename)])
      end
  end.

(** The lines of a text: a line ends at a carriage return and line feed
    pair, at a lone line feed or at a lone carriage return; a text that ends
    with a terminator has no further, empty line. *)
Fixpoint lines_from (current text : string) : list string :=
  match text with
  | EmptyString =>
      match current with EmptyString => [] | _ => [current] end
  | String c r =>
      if Ascii.eqb c Csv.CR then
        match r with
        | String c2 r2 =>
            if Ascii.eqb c2 Csv.LF then current :: lines_from EmptyString r2
            else current :: lines_from EmptyString r
        | EmptyString => [current]
        end
      else if Ascii.eqb c Csv.LF then current :: lines_from EmptyString r
      else lines_from (current +++ String c EmptyString) r
  end.

Definition lines (text : string) : list string := lines_from EmptyString text.

(** ** What one item, one page and the whole run yield

    The extraction blocks read as functions of the item, and the records and
    events that an item and a page add.  The lemmas of the next part relate
    them to the program. *)

(** The state a computation leaves. *)
Definition exec {A : Type} (m : M A) (st : state) : state := fst (m st).

Definition img_src (item : Node) : option string :=
  match find "img" None item with
  | Some e => get "src" e
  | None => None
  end.

Definition linked_element (item : Node) : option Node :=
  match find "a" (Some "name") item with
  | Some e => Some e
  | None => find "a" None item
  end.

Definition name_of (item : Node) : string :=
  match linked_element item with
  | Some e =>
      match get "title" e with
      | Some t => if Str.nonempty t then Str.strip t else get_text_strip e
      | None => get_text_strip e
      end
  | None => "N/A"
  end.

Definition rating_of (item : Node) : string :=
  match find "p" (Some "score") item with
  | Some e => get_text_strip e
  | None => "N/A"
  end.

Definition genre_of (item : Node) : string :=
  match find_all "button" (Some "category") item with
  | [] => "N/A"
  | categories => Str.join " " (map get_text_strip categories)
  end.

Section Yields.
Context {HV : HostValidation}.

Definition image_of (item : Node) : result string :=
  match img_src item with
  | Some src =>
      if Str.nonempty src then
        if negb (Str.startswith "http" src) then Urllib.urljoin BASE_URL src
        else Ok src
      else Ok "N/A"
  | None => Ok "N/A"
  end.

(** The value [image_url] is bound to when the item loop leaves the image
    block, normally or by a fault. *)
Definition image_local (item : Node) : string :=
  match image_of item, img_src item with
  | Ok u, _ => u
  | Raise _, Some src => src
  | Raise _, None => "N/A"
  end.

(** The records one item adds to [movies]. *)
Definition item_records (item : Node) : list movie :=
  match image_of item with
  | Ok u =>
      if String.eqb u "N/A" then []
      else [mkMovie (name_of item) u (rating_of item) (genre_of item)]
  | Raise _ => []
  end.

(** The state when the body of the item loop ends, normally or by a
    fault, and what it ends with. *)
Definition after_body (item : Node) (st : state) : state :=
  match image_of item with
  | Raise e =>
      mkState (movies st) (events st) (driver st)
        (Some (image_local item)) (l_movie_name st) (l_rating st) (l_genre st)
  | Ok u =>
      mkState (movies st ++ item_records item)
        (events st ++
           map (fun m => Print (MsgFound (name m) (rating m)))
             (item_records item))
        (driver st) (Some u) (Some (name_of item)) (Some (rating_of item))
        (Some (genre_of item))
  end.

(** The state after one turn of the item loop. *)
Definition after_item (item : Node) (st : state) : state :=
  match image_of item with
  | Raise e => exec (print (MsgItemError e)) (after_body item st)
  | Ok _ => after_body item st
  end.

Definition item_events (item : Node) : list event :=
  match image_of item with
  | Raise e => [Print (MsgItemError e)]
  | Ok _ =>
      map (fun m => Print (MsgFound (name m) (rating m))) (item_records item)
  end.

(** [extract(markup)] of the specification: the records of one parsed page. *)
Definition extract (soup : Node) : list movie :=
  flat_map item_records (find_all "div" (Some "item") soup).

Definition page_records (r : render) : list movie :=
  match r with
  | Rendered soup => extract soup
  | _ => []
  end.

Definition page_events (web : string -> render) (num_pages page_num : Z)
  : list event :=
  let url := page_url page_num in
  [Print (MsgScraping page_num url); InitDriver] ++
  match web url with
  | LaunchFails e => [Print (MsgPageError page_num e)]
  | LoadFails e => [DriverGet url; Print (MsgPageError page_num e); DriverQuit]
  | Rendered soup =>
      let movie_items := find_all "div" (Some "item") soup in
      [DriverGet url] ++
      match movie_items with
      | [] => [Print (MsgNoItems page_num)]
      | _ => []
      end ++
      flat_map item_events movie_items ++
      (if page_num <? num_pages then [Sleep 1] else []) ++
      [DriverQuit]
  end.

(** A relative reference in the sense of RFC 3986: [urlsplit] finds no
    scheme in it. *)
Definition is_relative_reference (s : string) : bool :=
  match Urllib.urlsplit s "" with
  | Ok sr => negb (Str.nonempty (Urllib.s_scheme sr))
  | Raise _ => false
  end.

End Yields.

(** ** Vocabulary of the statements and sample markup *)

Definition render_failed (r : render) : bool :=
  match r with
  | Rendered _ => false
  | _ => true
  end.

(** The page indices a trace announces, in order. *)
Definition visited (evs : list event) : list Z :=
  flat_map
    (fun e => match e with Print (MsgScraping p _) => [p] | _ => [] end) evs.

Definition category_button (label : string) : Node :=
  Tag "button" [("type", "button")] ["el-button"; "category"]
    [Tag "span" [] [] [NavigableString label]].

Definition title_link (title : string) : Node :=
  Tag "a" [("href", "/detail/1"); ("title", title)] ["name"]
    [Tag "h2" [] [] [NavigableString " Farewell My Concubine "]].

(** An item container of the listing: the cover link, the title link, the
    category buttons and whatever [score] holds. *)
Definition movie_card (src title : string) (labels : list string)
    (score : list Node) : Node :=
  Tag "div" [] ["el-card"; "item"]
    ([Tag "a" [("href", "/detail/1")] []
        [Tag "img" [("src", src)] ["cover"] []];
      title_link title;
      Tag "div" [] ["categories"] (map category_button labels)]
     ++ score).

Definition score_element (text : string) : Node :=
  Tag "p" [] ["score"] [NavigableString text].

Definition document (items : list Node) : Node :=
  Tag "[document]" [] [] [Tag "html" [] [] [Tag "body" [] [] items]].

Definition card_relative : Node :=
  movie_card "/img/x.jpg" "Farewell" ["Drama"; "Crime"] [score_element " 9.5 "].

Definition card_absolute : Node :=
  movie_card "http://cdn.example.org/y.png" "" ["Comedy"] [score_element "  "].

Definition card_bare : Node :=
  movie_card "cover/z.jpg" " Leon " [] [].

(** A container whose image source does not parse as a URL. *)
Definition card_bad_url : Node :=
  movie_card "//[" "Farewell" ["Drama"; "Crime"] [score_element " 9.5 "].

(** A container whose image is a file called [http.jpg] next to the page. *)
Definition card_http_file : Node :=
  movie_card "http.jpg" "Farewell" ["Drama"] [score_element "9.5"].

Definition card_no_image : Node :=
  Tag "div" [] ["el-card"; "item"] [title_link "Farewell"; score_element "9.0"].

Definition sample_page : Node :=
  document [card_relative; card_absolute; card_bare].

Definition record_relative : movie :=
  mkMovie "Farewell" "https://ssr1.scrape.center/img/x.jpg" "9.5" "Drama Crime".

Definition record_absolute : movie :=
  mkMovie "Farewell My Concubine" "http://cdn.example.org/y.png" "" "Comedy".

Definition record_bare : movie :=
  mkMovie "Leon" "https://ssr1.scrape.center/cover/z.jpg" "N/A" "N/A".

(** Page 1 renders [sample_page]; every other page times out. *)
Definition sample_web (url : string) : render :=
  if String.eqb url "https://ssr1.scrape.center/page/1"
  then Rendered sample_page
  else LoadFails (TimeoutException "Message: ").

(** The same with the pages swapped. *)
Definition sample_web_2 (url : string) : render :=
  if String.eqb url "https://ssr1.scrape.center/page/2"
  then Rendered sample_page
  else LaunchFails (WebDriverException "Message: session not created").

(** A text without carriage return and line feed. *)
Definition on_one_line (s : string) : bool :=
  Str.forallb (fun c => negb (Ascii.eqb c Csv.CR || Ascii.eqb c Csv.LF)) s.

Definition fields_on_one_line (m : movie) : bool :=
  forallb on_one_line (dict_to_list m).

Definition empty_disk : disk := mkDisk (fun _ => None) (fun _ => None).

Definition two_line_title : string :=
  "Farewell" +++ String Csv.LF "My Concubine".

(** A container whose title attribute is written on two lines. *)
Definition card_two_line_title : Node :=
  movie_card "http://cdn.example.org/y.png" two_line_title ["Drama"]
    [score_element "9.5"].

Definition record_two_line_title : movie :=
  mkMovie two_line_title "http://cdn.example.org/y.png" "9.5" "Drama".

(** A row as [writerow] writes it, without the line terminator. *)
Definition row_text (fields : list string) : string :=
  Str.join Csv.delimiter (map Csv.format_field fields).

(** An item whose image URL is extracted and passes the gate. *)
Definition well_formed {HV : HostValidation} (item : Node) : bool :=
  match image_of item with
  | Ok u => negb (String.eqb u "N/A")
  | Raise _ => false
  end.

(** ** Readings of a trace *)

(** The browser sessions along a trace.  [open_sessions] is the number of
    sessions that are open before the trace; the result is the number open
    after it, or [None] when a session is opened while another is open or
    closed while none is. *)
Fixpoint sessions (open_sessions : nat) (evs : list event) : option nat :=
  match evs with
  | [] => Some open_sessions
  | DriverGet _ :: rest =>
      match open_sessions with
      | O => sessions 1 rest
      | _ => None
      end
  | DriverQuit :: rest =>
      match open_sessions with
      | 1%nat => sessions 0 rest
      | _ => None
      end
  | _ :: rest => sessions open_sessions rest
  end.

(** The pauses of a trace, in seconds. *)
Definition sleeps (evs : list event) : list Z :=
  flat_map (fun e => match e with Sleep secs => [secs] | _ => [] end) evs.

(** The records a trace announces, as name and rating. *)
Definition found (evs : list event) : list (string * string) :=
  flat_map
    (fun e => match e with Print (MsgFound n r) => [(n, r)] | _ => [] end)
    evs.

(** The item faults a trace reports. *)
Definition item_errors (evs : list event) : list exn :=
  flat_map
    (fun e => match e with Print (MsgItemError x) => [x] | _ => [] end) evs.

Definition quits (evs : list event) : nat :=
  length (filter (fun e => match e with DriverQuit => true | _ => false end)
            evs).

Definition launched (r : render) : bool :=
  match r with
  | LaunchFails _ => false
  | _ => true
  end.

(** The item containers of a page, none when it did not render. *)
Definition page_items (r : render) : list Node :=
  match r with
  | Rendered soup => find_all "div" (Some "item") soup
  | _ => []
  end.

(** An item whose first image element, the one [item.find('img')] returns,
    has a [src] that is present and not empty. *)
Definition has_source (item : Node) : bool :=
  match img_src item with
  | Some src => Str.nonempty src
  | None => false
  end.

(** A text that does not begin, or does not end, with a character of [p]. *)
Definition starts_clean (p : ascii -> bool) (s : string) : bool :=
  match s with
  | EmptyString => true
  | String c _ => negb (p c)
  end.

Fixpoint ends_clean (p : ascii -> bool) (s : string) : bool :=
  match s with
  | EmptyString => true
  | String c EmptyString => negb (p c)
  | String _ r => ends_clean p r
  end.

(** A character that ends the path of a reference or that [urlsplit]
    removes: question mark, hash, semicolon, tab, line feed, carriage
    return. *)
Definition path_breaking (c : ascii) : bool :=
  Ascii.eqb c "?" || Ascii.eqb c "#" || Ascii.eqb c ";"
  || Urllib.unsafe_byte c.

Definition dot_segment (seg : string) : bool :=
  String.eqb seg "." || String.eqb seg "..".

(** A path from the root of the site: it begins with one slash, not two,
    has no dot segment and no character that ends or alters the path. *)
Definition rooted_path (src : string) : bool :=
  Str.startswith "/" src && negb (Str.startswith "//" src)
  && Str.forallb (fun c => negb (path_breaking c)) src
  && forallb (fun seg => negb (dot_segment seg)) (Str.split "/" src).

(** ** Reading back what the writer wrote

    A reader for the rows that [Csv.format_row] produces: fields are
    separated by commas, a field that begins with the quote character runs
    to the next single quote character, a doubled quote character inside it
    stands for one, and a row ends with carriage return and line feed.  It
    returns [None] on any other text. *)

Inductive read_mode : Type :=
| Plain
| Quoted
| AfterQuote
| AfterCR.

Fixpoint read_rows (m : read_mode) (field : string) (row : list string)
    (rows : list (list string)) (text : string)
  : option (list (list string)) :=
  match text with
  | EmptyString =>
      match m, field, row with
      | Plain, EmptyString, [] => Some rows
      | _, _, _ => None
      end
  | String c rest =>
      match m with
      | Plain =>
          if Ascii.eqb c "," then read_rows Plain "" (row ++ [field]) rows rest
          else if Ascii.eqb c Csv.CR then
            read_rows AfterCR "" [] (rows ++ [row ++ [field]]) rest
          else if Ascii.eqb c Csv.quotechar then
            match field with
            | EmptyString => read_rows Quoted "" row rows rest
            | _ => None
            end
          else if Ascii.eqb c Csv.LF then None
          else read_rows Plain (field +++ String c "") row rows rest
      | Quoted =>
          if Ascii.eqb c Csv.quotechar then
            read_rows AfterQuote field row rows rest
          else read_rows Quoted (field +++ String c "") row rows rest
      | AfterQuote =>
          if Ascii.eqb c Csv.quotechar then
            read_rows Quoted (field +++ String c "") row rows rest
          else if Ascii.eqb c "," then
            read_rows Plain "" (row ++ [field]) rows rest
          else if Ascii.eqb c Csv.CR then
            read_rows AfterCR "" [] (rows ++ [row ++ [field]]) rest
          else None
      | AfterCR =>
          if Ascii.eqb c Csv.LF then read_rows Plain "" [] rows rest
          else None
      end
  end.

Definition read_csv (text : string) : option (list (list string)) :=
  read_rows Plain "" [] [] text.

(** The text [save_to_csv] writes for a list of records. *)
Definition csv_text (records : list movie) : string :=
  Str.join "" (map Csv.format_row (fieldnames :: map dict_to_list records)).

(** ** main *)

(** One constructor per [print] call of [main]. *)
Inductive main_message : Type :=
| MsgRule
| MsgTitle
| MsgRuleAfterBlank
| MsgTotal (count : nat)
| MsgSampleHeader
| MsgDashes
| MsgSampleName (i : Z) (movie_name : string)
| MsgSampleRating (rating : string)
| MsgSampleGenre (genre : string)
| MsgSampleImage (image_url : string).

(** What the program prints or does: in [scrape_movies] and [save_to_csv],
    or in [main] itself. *)
Inductive output : Type :=
| FromCall (e : event)
| FromMain (m : main_message).

(** [enumerate(l, start)] *)
Fixpoint enumerate {A : Type} (start : Z) (l : list A) : list (Z * A) :=
  match l with
  | [] => []
  | x :: r => (start, x) :: enumerate (start + 1) r
  end.

Definition sample_lines (entry : Z * movie) : list main_message :=
  let (i, m) := entry in
  [MsgSampleName i (name m); MsgSampleRating (rating m);
   MsgSampleGenre (genre m); MsgSampleImage (image_url m)].

Section Main.
Context {HV : HostValidation}.

(** Lines 175-199.  [d] is the disk as it is when [save_to_csv] is called.
    Returns the disk afterwards, everything printed or done in order, and
    whether the function returned or raised. *)
Definition main (web : string -> render) (d : disk)
  : disk * list output * result unit :=
  let banner := [FromMain MsgRule; FromMain MsgTitle; FromMain MsgRule] in
  match scrape_movies_run web 10 with
  | (st, Raise e) => (d, banner ++ map FromCall (events st), Raise e)
  | (st, Ok movies) =>
      let totals :=
        [FromMain MsgRuleAfterBlank; FromMain (MsgTotal (length movies));
         FromMain MsgRule] in
      let (d', saved) := save_to_csv movies "movie.csv" d in
      let sample :=
        match movies with
        | [] => []
        | _ =>
            [MsgSampleHeader; MsgDashes]
            ++ flat_map sample_lines (enumerate 1 (firstn 3 movies))
        end in
      (d',
       banner ++ map FromCall (events st) ++ totals ++ map FromCall saved
       ++ map FromMain sample,
       Ok tt)
  end.

End Main.

(** The numbered names that the sample of [main] shows. *)
Definition sample_names (out : list output) : list (Z * string) :=
  flat_map
    (fun o => match o with
              | FromMain (MsgSampleName i n) => [(i, n)]
              | _ => []
              end) out.

(** The totals that [main] prints. *)
Definition totals_printed (out : list output) : list nat :=
  flat_map
    (fun o => match o with FromMain (MsgTotal n) => [n] | _ => [] end) out.

(** A rendered page on which the wait for an element of class item
    succeeds and that has no item container: the class is borne by a list
    entry, not by a [div]. *)
Definition empty_page : Node :=
  document
    [Tag "ul" [] ["el-row"]
       [Tag "li" [] ["item"] [NavigableString "no results"]]].

Definition empty_web (url : string) : render := Rendered empty_page.

(** ** Text of an element, on the side of the statements *)

(** The text strings below a tag, in document order. *)
Definition fragments (n : Node) : list string :=
  flat_map text_of (descendants n).

(** [tag.get_text()]: the text strings below the tag, concatenated as they
    are. *)
Definition get_text (n : Node) : string := Str.join "" (fragments n).

(** [t] is [s] without its leading and trailing white space. *)
Definition trimmed_of (s t : string) : Prop :=
  exists a b,
    s = a +++ t +++ b
    /\ Str.forallb Str.isspace a = true
    /\ Str.forallb Str.isspace b = true
    /\ starts_clean Str.isspace t = true
    /\ ends_clean Str.isspace t = true.

(** [t] is made of the fragments in order, each without its leading and
    trailing white space, the ones that become empty left out. *)
Definition stripped_fragments (frags : list string) (t : string) : Prop :=
  exists pieces,
    Forall2 trimmed_of frags pieces
    /\ t = Str.join "" (filter Str.nonempty pieces).

(** Some element below [n] has the class [c], whatever its tag: what the
    wait of line 66 waits for with [c] the class item. *)
Definition class_present (c : string) (n : Node) : bool :=
  existsb
    (fun x => match x with
              | Tag _ _ cls _ => existsb (String.eqb c) cls
              | _ => false
              end)
    (descendants n).

(** A container whose title and category labels are written with white
    space around them. *)
Definition card_padded : Node :=
  movie_card "/img/x.jpg" "  Farewell " [" Drama "; "Crime  "]
    [score_element " 9.5 "].

Definition record_padded : movie :=
  mkMovie "Farewell" "https://ssr1.scrape.center/img/x.jpg" "9.5" "Drama Crime".

(** A title link without title attribute whose text is in several
    fragments. *)
Definition split_link : Node :=
  Tag "a" [("href", "/detail/1")] ["name"]
    [Tag "h2" [] [] [NavigableString "Farewell"];
     NavigableString " ";
     Tag "span" [] [] [NavigableString "(1993)"]].

Definition card_split_link : Node :=
  Tag "div" [] ["el-card"; "item"]
    [Tag "img" [("src", "http://cdn.example.org/y.png")] ["cover"] [];
     split_link].

(** A category button whose label is in several fragments. *)
Definition split_button : Node :=
  Tag "button" [("type", "button")] ["el-button"; "category"]
    [Tag "span" [] [] [NavigableString "Sci"];
     NavigableString "  ";
     Tag "span" [] [] [NavigableString "Fi"]].

Definition card_split_category : Node :=
  Tag "div" [] ["el-card"; "item"]
    [Tag "img" [("src", "http://cdn.example.org/y.png")] ["cover"] [];
     title_link "Solaris";
     split_button].

(** A container whose first image element has no source and whose second
    one has. *)
Definition card_second_image : Node :=
  Tag "div" [] ["el-card"; "item"]
    [Tag "img" [("alt", "badge")] ["badge"] [];
     Tag "img" [("src", "/img/x.jpg")] ["cover"] [];
     title_link "Farewell"].

(** * Properties *)

Section Properties.
Context {HV : HostValidation}.

Lemma nonempty_true_iff (s : string) : Str.nonempty s = true <-> s <> "".
Proof. destruct s; simpl; split; congruence. Qed.

Lemma extract_image_url_run (item : Node) (st : state) :
  extract_image_url item st =
  (exec (set_image_url (image_local item)) st,
   match image_of item with Ok _ => Ok tt | Raise e => Raise e end).
Proof.
  unfold extract_image_url, image_local, image_of, img_src, exec.
  destruct (find "img" None item) as [e|]; [|reflexivity].
  destruct (get "src" e) as [src|]; [|reflexivity].
  unfold bind at 1. simpl (set_image_url "N/A" st).
  destruct (Str.nonempty src) eqn:Hne; [|reflexivity].
  simpl andb.
  destruct (Str.startswith "http" src); simpl negb; cbv iota.
  - reflexivity.
  - unfold bind, lift, set_image_url; simpl.
    destruct (Urllib.urljoin BASE_URL src); reflexivity.
Qed.

Lemma extract_movie_name_run (item : Node) (st : state) :
  extract_movie_name item st = (exec (set_movie_name (name_of item)) st, Ok tt).
Proof.
  unfold extract_movie_name, name_of, linked_element, exec.
  unfold bind at 1. simpl (set_movie_name "N/A" st).
  destruct (match find "a" (Some "name") item with
            | Some e => Some e
            | None => find "a" None item
            end) as [e|]; [|reflexivity].
  destruct (get "title" e) as [t|]; [destruct (Str.nonempty t)|]; reflexivity.
Qed.

Lemma extract_rating_run (item : Node) (st : state) :
  extract_rating item st = (exec (set_rating (rating_of item)) st, Ok tt).
Proof.
  unfold extract_rating, rating_of, exec.
  destruct (find "p" (Some "score") item); reflexivity.
Qed.

Lemma extract_genre_run (item : Node) (st : state) :
  extract_genre item st = (exec (set_genre (genre_of item)) st, Ok tt).
Proof.
  unfold extract_genre, genre_of, exec.
  destruct (find_all "button" (Some "category") item); reflexivity.
Qed.

Lemma item_body_run (item : Node) (st : state) :
  item_body item st =
  (after_body item st,
   match image_of item with Ok _ => Ok tt | Raise e => Raise e end).
Proof.
  unfold item_body, after_body, item_records.
  unfold bind at 1. rewrite extract_image_url_run.
  unfold image_local.
  destruct (image_of item) as [u|e] eqn:Hi.
  - unfold bind at 1. rewrite extract_movie_name_run.
    unfold bind at 1. rewrite extract_rating_run.
    unfold bind at 1. rewrite extract_genre_run.
    unfold add_if_valid_image, exec, bind, read, append_movie, print, emit,
      set_genre, set_rating, set_movie_name, set_image_url, ret; simpl.
    destruct (String.eqb u "N/A"); simpl; rewrite ?app_nil_r; reflexivity.
  - unfold exec, set_image_url; simpl. reflexivity.
Qed.

Lemma item_iteration_run (item : Node) (st : state) :
  item_iteration item st = (after_item item st, Ok tt).
Proof.
  unfold item_iteration, try_except, after_item.
  rewrite item_body_run. destruct (image_of item); reflexivity.
Qed.

Lemma after_item_movies (item : Node) (st : state) :
  movies (after_item item st) = movies st ++ item_records item.
Proof.
  unfold after_item, after_body, item_records.
  destruct (image_of item); simpl; [reflexivity | now rewrite app_nil_r].
Qed.

Lemma after_item_events (item : Node) (st : state) :
  events (after_item item st) = events st ++ item_events item.
Proof.
  unfold after_item, after_body, item_events.
  destruct (image_of item); reflexivity.
Qed.

Lemma after_item_driver (item : Node) (st : state) :
  driver (after_item item st) = driver st.
Proof. unfold after_item, after_body. destruct (image_of item); reflexivity. Qed.

Lemma item_loop_run (items : list Node) (st : state) :
  exists st',
    for_each items item_iteration st = (st', Ok tt)
    /\ movies st' = movies st ++ flat_map item_records items
    /\ events st' = events st ++ flat_map item_events items
    /\ driver st' = driver st.
Proof.
  revert st. induction items as [|item items IH]; intros st.
  - exists st. simpl. now rewrite !app_nil_r.
  - simpl. unfold bind. rewrite item_iteration_run.
    destruct (IH (after_item item st)) as (st' & Hrun & Hm & He & Hd).
    exists st'. rewrite Hrun, Hm, He, Hd.
    rewrite after_item_movies, after_item_events, after_item_driver.
    now rewrite <- !app_assoc.
Qed.

Lemma bind_emit {B : Type} (e : event) (k : unit -> M B) (st : state) :
  bind (emit e) k st = k tt (exec (emit e) st).
Proof. reflexivity. Qed.

Lemma bind_set_driver {B : Type} (d : bool) (k : unit -> M B) (st : state) :
  bind (set_driver d) k st = k tt (exec (set_driver d) st).
Proof. reflexivity. Qed.

Lemma bind_run {A B : Type} (m : M A) (k : A -> M B) (st st' : state) (a : A) :
  m st = (st', Ok a) -> bind m k st = k a st'.
Proof. intros H. unfold bind. now rewrite H. Qed.

(** Lines 72-129: the part of the page body that follows the rendering. *)
Lemma rendered_page_run (num_pages page_num : Z) (items : list Node)
    (st : state) :
  exists st',
    (match items with
     | [] => print (MsgNoItems page_num)
     | _ => ret tt
     end ;;
     for_each items item_iteration ;;
     if page_num <? num_pages then emit (Sleep 1) else ret tt)%monad st
    = (st', Ok tt)
    /\ movies st' = movies st ++ flat_map item_records items
    /\ events st' =
       events st ++
       match items with
       | [] => [Print (MsgNoItems page_num)]
       | _ => []
       end ++
       flat_map item_events items ++
       (if page_num <? num_pages then [Sleep 1] else [])
    /\ driver st' = driver st.
Proof.
  set (st1 := exec (match items with
                    | [] => print (MsgNoItems page_num)
                    | _ => ret tt
                    end) st).
  destruct (item_loop_run items st1) as (st2 & Hrun & Hm & He & Hd).
  exists (exec (if page_num <? num_pages then emit (Sleep 1) else ret tt) st2).
  assert (H1 : (match items with
                | [] => print (MsgNoItems page_num)
                | _ => ret tt
                end) st = (st1, Ok tt))
    by (unfold st1; destruct items; reflexivity).
  rewrite (bind_run _ _ _ _ _ H1), (bind_run _ _ _ _ _ Hrun).
  assert (Hm1 : movies st1 = movies st) by (unfold st1; destruct items; reflexivity).
  assert (Hd1 : driver st1 = driver st) by (unfold st1; destruct items; reflexivity).
  assert (He1 : events st1 =
                events st ++ match items with
                             | [] => [Print (MsgNoItems page_num)]
                             | _ => []
                             end).
  { unfold st1; destruct items; simpl; [reflexivity | now rewrite app_nil_r]. }
  destruct (page_num <? num_pages); unfold exec, ret, emit; simpl;
    rewrite ?Hm, ?He, ?Hd, ?Hm1, ?He1, ?Hd1, ?app_nil_r, <- ?app_assoc; auto.
Qed.

Lemma page_iteration_run (web : string -> render) (num_pages page_num : Z)
    (st : state) :
  exists st',
    page_iteration web num_pages page_num st = (st', Ok tt)
    /\ movies st' = movies st ++ page_records (web (page_url page_num))
    /\ events st' = events st ++ page_events web num_pages page_num.
Proof.
  destruct (page_iteration web num_pages page_num st) as [st' r] eqn:Hrun.
  exists st'.
  unfold page_iteration, print in Hrun.
  rewrite bind_emit, bind_set_driver in Hrun.
  unfold finally, try_except in Hrun.
  rewrite bind_emit in Hrun.
  unfold page_events, page_records, extract.
  destruct (web (page_url page_num)) as [e|e|soup].
  - simpl in Hrun. inversion Hrun; subst; clear Hrun. simpl.
    rewrite app_nil_r, <- !app_assoc. auto.
  - simpl in Hrun. inversion Hrun; subst; clear Hrun. simpl.
    rewrite app_nil_r, <- !app_assoc. auto.
  - rewrite bind_set_driver, bind_emit in Hrun.
    match type of Hrun with
    | context [bind _ _ ?s] =>
        destruct (rendered_page_run num_pages page_num
                    (find_all "div" (Some "item") soup) s)
          as (st2 & Hbody & Hm & He & Hd)
    end.
    unfold print in Hbody. rewrite Hbody in Hrun.
    unfold bind, get_driver in Hrun. rewrite Hd in Hrun. simpl in Hrun.
    inversion Hrun; subst; clear Hrun. simpl.
    rewrite Hm, He. simpl. rewrite <- ?app_assoc. simpl.
    rewrite <- ?app_assoc. auto.
Qed.

Lemma page_loop_run (web : string -> render) (num_pages : Z) (pages : list Z)
    (st : state) :
  exists st',
    for_each pages (page_iteration web num_pages) st = (st', Ok tt)
    /\ movies st' =
       movies st ++ flat_map (fun p => page_records (web (page_url p))) pages
    /\ events st' = events st ++ flat_map (page_events web num_pages) pages.
Proof.
  revert st. induction pages as [|p pages IH]; intros st.
  - exists st. simpl. now rewrite !app_nil_r.
  - simpl. unfold bind.
    destruct (page_iteration_run web num_pages p st) as (st1 & Hrun & Hm & He).
    rewrite Hrun.
    destruct (IH st1) as (st' & Hrun' & Hm' & He').
    exists st'. rewrite Hrun', Hm', He', Hm, He. now rewrite <- !app_assoc.
Qed.

(** The run as a whole: it returns, with the records and the trace of the
    pages in order. *)
Lemma scrape_movies_run_spec (web : string -> render) (num_pages : Z) :
  exists st,
    scrape_movies_run web num_pages = (st, Ok (movies st))
    /\ movies st =
       flat_map (fun p => page_records (web (page_url p)))
         (range 1 (num_pages + 1))
    /\ events st =
       flat_map (page_events web num_pages) (range 1 (num_pages + 1)).
Proof.
  unfold scrape_movies_run, bind.
  destruct (page_loop_run web num_pages (range 1 (num_pages + 1)) initial_state)
    as (st & Hrun & Hm & He).
  rewrite Hrun. exists st. simpl in Hm, He. auto.
Qed.

Lemma scrape_movies_spec (web : string -> render) (num_pages : Z) :
  scrape_movies web num_pages =
  Ok (flat_map (fun p => page_records (web (page_url p)))
        (range 1 (num_pages + 1))).
Proof.
  unfold scrape_movies.
  destruct (scrape_movies_run_spec web num_pages) as (st & Hrun & Hm & _).
  rewrite Hrun. simpl. now rewrite Hm.
Qed.

(** ** Items *)

Lemma item_iteration_movies (item : Node) (st : state) :
  movies (exec (item_iteration item) st) = movies st ++ item_records item.
Proof.
  unfold exec. rewrite item_iteration_run. apply after_item_movies.
Qed.

(** A record that an item adds is built from the four extracted values, and
    its image URL passed the gate. *)
Lemma emitted_record (item : Node) (st : state) (r : movie) :
  movies (exec (item_iteration item) st) = movies st ++ [r] ->
  exists u,
    image_of item = Ok u
    /\ String.eqb u "N/A" = false
    /\ r = mkMovie (name_of item) u (rating_of item) (genre_of item).
Proof.
  rewrite item_iteration_movies. intros H. apply app_inv_head in H.
  unfold item_records in H.
  destruct (image_of item) as [u|e]; [|discriminate].
  destruct (String.eqb u "N/A") eqn:Hu; [discriminate|].
  exists u. inversion H. auto.
Qed.

Lemma item_records_image (item : Node) (r : movie) :
  In r (item_records item) -> image_url r <> "N/A".
Proof.
  unfold item_records.
  destruct (image_of item) as [u|e]; [|intros []].
  destruct (String.eqb u "N/A") eqn:Hu; [intros []|].
  intros [<-|[]]. simpl. now apply String.eqb_neq.
Qed.

Lemma page_records_image (pg : render) (r : movie) :
  In r (page_records pg) -> image_url r <> "N/A".
Proof.
  destruct pg as [e|e|soup]; simpl; try (intros []).
  unfold extract. rewrite in_flat_map. intros (item & _ & Hin).
  eapply item_records_image; eauto.
Qed.

(** C1: every record that [scrape_movies] returns has an [image_url] other
    than the sentinel, and an item without an image element, without a
    [src] or with an empty [src] adds no record, whatever the state the item
    loop is in. *)
Theorem image_is_inclusion_gate (web : string -> render) (num_pages : Z) :
  (forall ms r,
      scrape_movies web num_pages = Ok ms -> In r ms -> image_url r <> "N/A")
  /\ (forall item st,
        find "img" None item = None
        \/ (exists e, find "img" None item = Some e
                      /\ (get "src" e = None \/ get "src" e = Some "")) ->
        movies (exec (item_iteration item) st) = movies st).
Proof.
  split.
  - intros ms r Hrun Hin. rewrite scrape_movies_spec in Hrun.
    inversion Hrun; subst; clear Hrun.
    apply in_flat_map in Hin. destruct Hin as (p & _ & Hin).
    eapply page_records_image; eauto.
  - intros item st H. rewrite item_iteration_movies.
    assert (Hi : image_of item = Ok "N/A").
    { unfold image_of, img_src.
      destruct H as [-> | (e & -> & [-> | ->])]; reflexivity. }
    unfold item_records. rewrite Hi. simpl. apply app_nil_r.
Qed.

(** C10: when the rating element is present the rating is its stripped
    text, so an element with empty text gives the empty string and not the
    sentinel; the sentinel is the rating when the element is absent. *)
Theorem rating_empty_is_not_sentinel (item : Node) (st : state) (r : movie) :
  movies (exec (item_iteration item) st) = movies st ++ [r] ->
  (forall e,
      find "p" (Some "score") item = Some e ->
      rating r = get_text_strip e
      /\ (get_text_strip e = "" -> rating r = "" /\ rating r <> "N/A"))
  /\ (find "p" (Some "score") item = None -> rating r = "N/A").
Proof.
  intros H. destruct (emitted_record _ _ _ H) as (u & _ & _ & ->). simpl.
  unfold rating_of. split.
  - intros e ->. split; [reflexivity|]. intros ->. split; [reflexivity|discriminate].
  - intros ->. reflexivity.
Qed.

(** C2, as the code has it: a source that does not begin with the four
    characters http is passed to [urljoin] with the base URL and the record
    carries the result; a source that begins with them is used unchanged;
    and the source /img/x.jpg gives the URL of the site followed by it. *)
Theorem image_url_resolution (item : Node) (st : state) (src : string)
    (r : movie) :
  img_src item = Some src ->
  movies (exec (item_iteration item) st) = movies st ++ [r] ->
  (Str.startswith "http" src = true -> image_url r = src)
  /\ (Str.startswith "http" src = false ->
      Urllib.urljoin BASE_URL src = Ok (image_url r))
  /\ (src = "/img/x.jpg" ->
      image_url r = "https://ssr1.scrape.center/img/x.jpg").
Proof.
  intros Hsrc H. destruct (emitted_record _ _ _ H) as (u & Hi & Hu & ->).
  simpl. unfold image_of in Hi. rewrite Hsrc in Hi.
  destruct (Str.nonempty src) eqn:Hne.
  - repeat split.
    + intros Hp. rewrite Hp in Hi. simpl in Hi. now inversion Hi.
    + intros Hp. rewrite Hp in Hi. exact Hi.
    + intros ->. vm_compute in Hi. now inversion Hi.
  - inversion Hi; subst. discriminate.
Qed.

(** C6, as the code has it: the four extractions of an item run one after
    the other inside one handler.  When the image block faults, the turn of
    the loop ends there: the name, the rating and the genre are not
    extracted, no record is added, the fault is reported and the turn
    returns normally.  When it does not fault, the three other locals are
    bound to what their own elements give. *)
Theorem item_fields_share_one_guard (item : Node) (st : state) :
  (forall e st1,
      extract_image_url item st = (st1, Raise e) ->
      let st' := exec (item_iteration item) st in
      item_iteration item st = (st', Ok tt)
      /\ l_movie_name st' = l_movie_name st
      /\ l_rating st' = l_rating st
      /\ l_genre st' = l_genre st
      /\ movies st' = movies st
      /\ events st' = events st ++ [Print (MsgItemError e)])
  /\ (forall st1,
        extract_image_url item st = (st1, Ok tt) ->
        let st' := exec (item_iteration item) st in
        l_movie_name st' = Some (name_of item)
        /\ l_rating st' = Some (rating_of item)
        /\ l_genre st' = Some (genre_of item)).
Proof.
  split.
  - intros e st1 Hx st'. subst st'. unfold exec.
    rewrite item_iteration_run. rewrite extract_image_url_run in Hx.
    unfold after_item, after_body.
    destruct (image_of item) as [u|e']; [inversion Hx|].
    inversion Hx; subst. simpl. repeat split; reflexivity.
  - intros st1 Hx st'. subst st'. unfold exec.
    rewrite item_iteration_run. rewrite extract_image_url_run in Hx.
    unfold after_item, after_body.
    destruct (image_of item) as [u|e']; [|inversion Hx].
    simpl. repeat split; reflexivity.
Qed.

Lemma item_body_fault (item : Node) (st : state) (e : exn) :
  snd (item_body item st) = Raise e -> image_of item = Raise e.
Proof.
  rewrite item_body_run. simpl. destruct (image_of item); congruence.
Qed.

(** C7: when the body of the item loop faults for one item, the loop over
    the page still returns normally, the fault is reported, and the records
    are those of the other items of the page, in order: the same as if the
    item were not on the page. *)
Theorem item_fault_skips_only_that_item (before after : list Node)
    (item : Node) (st st0 : state) (e : exn) :
  snd (item_body item st0) = Raise e ->
  exists st',
    for_each (before ++ item :: after) item_iteration st = (st', Ok tt)
    /\ movies st' =
       movies st ++ flat_map item_records before ++ flat_map item_records after
    /\ movies st' = movies (exec (for_each (before ++ after) item_iteration) st)
    /\ In (Print (MsgItemError e)) (events st').
Proof.
  intros Hf. apply item_body_fault in Hf.
  destruct (item_loop_run (before ++ item :: after) st)
    as (st' & Hrun & Hm & He & _).
  destruct (item_loop_run (before ++ after) st) as (st2 & Hrun2 & Hm2 & _).
  exists st'. split; [exact Hrun|].
  assert (Hnone : item_records item = []) by (unfold item_records; now rewrite Hf).
  rewrite flat_map_app in Hm. simpl in Hm. rewrite Hnone in Hm. simpl in Hm.
  repeat split.
  - exact Hm.
  - unfold exec. rewrite Hrun2. simpl. rewrite Hm2, flat_map_app. exact Hm.
  - rewrite He, flat_map_app. simpl. unfold item_events at 2. rewrite Hf.
    apply in_or_app. right. apply in_or_app. right. apply in_or_app. left.
    now left.
Qed.

(** ** Pages *)

Lemma range_empty (a b : Z) : b <= a -> range a b = [].
Proof.
  intros H. unfold range. replace (Z.to_nat (b - a)) with O by lia. reflexivity.
Qed.

Lemma range_cons (a b : Z) : a < b -> range a b = a :: range (a + 1) b.
Proof.
  intros H. unfold range.
  replace (Z.to_nat (b - a)) with (S (Z.to_nat (b - (a + 1)))) by lia.
  simpl. f_equal; [lia|].
  rewrite <- seq_shift, map_map. apply map_ext. intros i. lia.
Qed.

Lemma range_split (a p b : Z) :
  a <= p < b -> range a b = range a p ++ p :: range (p + 1) b.
Proof.
  intros H. remember (Z.to_nat (p - a)) as k eqn:Hk.
  revert a H Hk. induction k as [|k IH]; intros a H Hk.
  - assert (a = p) by lia. subst a.
    rewrite (range_empty p p) by lia. simpl. apply range_cons. lia.
  - rewrite (range_cons a b) by lia. rewrite (range_cons a p) by lia.
    simpl. f_equal. apply IH; lia.
Qed.

Lemma range_length (a b : Z) : length (range a b) = Z.to_nat (b - a).
Proof. unfold range. now rewrite length_map, length_seq. Qed.

Lemma range_nth (a b : Z) (i : nat) :
  (i < Z.to_nat (b - a))%nat -> nth i (range a b) 0 = a + Z.of_nat i.
Proof.
  intros H. unfold range. set (f := fun k => a + Z.of_nat k).
  rewrite (nth_indep _ 0 (f O)) by (now rewrite length_map, length_seq).
  rewrite (map_nth f), seq_nth by exact H. reflexivity.
Qed.

Lemma flat_map_cons {A B : Type} (f : A -> list B) (x : A) (l : list A) :
  flat_map f (x :: l) = f x ++ flat_map f l.
Proof. reflexivity. Qed.

Lemma visited_app (l1 l2 : list event) :
  visited (l1 ++ l2) = visited l1 ++ visited l2.
Proof. unfold visited. apply flat_map_app. Qed.

Lemma visited_item_events (items : list Node) :
  visited (flat_map item_events items) = [].
Proof.
  induction items as [|item items IH]; [reflexivity|].
  change (flat_map item_events (item :: items))
    with (item_events item ++ flat_map item_events items).
  rewrite visited_app, IH, app_nil_r.
  unfold item_events. destruct (image_of item); [|reflexivity].
  induction (item_records item); [reflexivity | assumption].
Qed.

Lemma visited_page_events (web : string -> render) (num_pages p : Z) :
  visited (page_events web num_pages p) = [p].
Proof.
  unfold page_events. rewrite visited_app.
  destruct (web (page_url p)) as [e|e|soup]; try reflexivity.
  rewrite !visited_app, visited_item_events.
  destruct (find_all "div" (Some "item") soup);
    destruct (p <? num_pages); reflexivity.
Qed.

Lemma visited_pages (web : string -> render) (num_pages : Z) (pages : list Z) :
  visited (flat_map (page_events web num_pages) pages) = pages.
Proof.
  induction pages as [|p pages IH]; [reflexivity|].
  change (flat_map (page_events web num_pages) (p :: pages))
    with (page_events web num_pages p
          ++ flat_map (page_events web num_pages) pages).
  rewrite visited_app, visited_page_events, IH. reflexivity.
Qed.

Lemma failed_page_records (pg : render) :
  render_failed pg = true -> page_records pg = [].
Proof. destruct pg; simpl; congruence. Qed.

Lemma failed_page_reported (web : string -> render) (num_pages p : Z) :
  render_failed (web (page_url p)) = true ->
  exists e, In (Print (MsgPageError p e)) (page_events web num_pages p).
Proof.
  unfold page_events. destruct (web (page_url p)) as [e|e|soup]; simpl;
    [| |discriminate]; intros _; exists e; auto 6.
Qed.

Lemma well_formed_records (items : list Node) :
  forallb well_formed items = true ->
  length (flat_map item_records items) = length items.
Proof.
  induction items as [|item items IH]; [reflexivity|].
  simpl. intros H. apply andb_prop in H. destruct H as [Hw Hrest].
  rewrite length_app, (IH Hrest). unfold well_formed in Hw.
  unfold item_records. destruct (image_of item) as [u|e]; [|discriminate].
  destruct (String.eqb u "N/A"); [discriminate | reflexivity].
Qed.

(** C5: a page whose rendering fails adds no record, the failure is
    reported, every page from 1 to the page count is still visited, and the
    run returns normally with the records of the other pages; with two
    pages, one giving three records and the other failing, the run returns
    exactly these three records. *)
Theorem render_failure_is_contained (web : string -> render) :
  (forall num_pages p,
      1 <= p <= num_pages ->
      render_failed (web (page_url p)) = true ->
      exists st,
        scrape_movies_run web num_pages = (st, Ok (movies st))
        /\ movies st =
           flat_map (fun q => page_records (web (page_url q))) (range 1 p)
           ++ flat_map (fun q => page_records (web (page_url q)))
                (range (p + 1) (num_pages + 1))
        /\ (exists e, In (Print (MsgPageError p e)) (events st))
        /\ visited (events st) = range 1 (num_pages + 1))
  /\ (forall soup,
        web (page_url 1) = Rendered soup ->
        length (find_all "div" (Some "item") soup) = 3%nat ->
        forallb well_formed (find_all "div" (Some "item") soup) = true ->
        render_failed (web (page_url 2)) = true ->
        exists ms,
          scrape_movies web 2 = Ok ms /\ ms = extract soup
          /\ length ms = 3%nat)
  /\ (forall soup,
        web (page_url 2) = Rendered soup ->
        length (find_all "div" (Some "item") soup) = 3%nat ->
        forallb well_formed (find_all "div" (Some "item") soup) = true ->
        render_failed (web (page_url 1)) = true ->
        exists ms,
          scrape_movies web 2 = Ok ms /\ ms = extract soup
          /\ length ms = 3%nat).
Proof.
  repeat split.
  - intros num_pages p Hp Hf.
    destruct (scrape_movies_run_spec web num_pages) as (st & Hrun & Hm & He).
    exists st. split; [exact Hrun|].
    repeat split.
    + rewrite (range_split 1 p (num_pages + 1)) in Hm by lia.
      rewrite flat_map_app, flat_map_cons in Hm.
      rewrite (failed_page_records _ Hf) in Hm. exact Hm.
    + destruct (failed_page_reported web num_pages p Hf) as (e & Hin).
      exists e. rewrite He, (range_split 1 p (num_pages + 1)) by lia.
      rewrite flat_map_app, flat_map_cons.
      apply in_or_app. right. apply in_or_app. now left.
    + rewrite He. apply visited_pages.
  - intros soup Hs Hlen Hwf Hf. exists (extract soup).
    rewrite scrape_movies_spec. change (range 1 (2 + 1)) with [1; 2].
    rewrite !flat_map_cons, Hs, (failed_page_records _ Hf). simpl.
    rewrite !app_nil_r. repeat split.
    unfold extract. now rewrite well_formed_records.
  - intros soup Hs Hlen Hwf Hf. exists (extract soup).
    rewrite scrape_movies_spec. change (range 1 (2 + 1)) with [1; 2].
    rewrite !flat_map_cons, Hs, (failed_page_records _ Hf). simpl.
    rewrite !app_nil_r. repeat split.
    unfold extract. now rewrite well_formed_records.
Qed.

(** C9: the run visits the page indices 1, 2, ... up to the page count, in
    this order, and returns the records of these pages one page after the
    other; for a page count of zero or less it visits nothing, prints
    nothing and returns the empty list. *)
Theorem pages_iterated_in_order (web : string -> render) (num_pages : Z) :
  (exists st,
      scrape_movies_run web num_pages = (st, Ok (movies st))
      /\ visited (events st) = range 1 (num_pages + 1)
      /\ movies st =
         flat_map (fun p => page_records (web (page_url p)))
           (range 1 (num_pages + 1)))
  /\ (0 <= num_pages ->
      length (range 1 (num_pages + 1)) = Z.to_nat num_pages
      /\ forall i, (i < Z.to_nat num_pages)%nat ->
                   nth i (range 1 (num_pages + 1)) 0 = 1 + Z.of_nat i)
  /\ (num_pages <= 0 ->
      scrape_movies_run web num_pages = (initial_state, Ok [])).
Proof.
  repeat split.
  - destruct (scrape_movies_run_spec web num_pages) as (st & Hrun & Hm & He).
    exists st. rewrite He, visited_pages. auto.
  - rewrite range_length. f_equal. lia.
  - intros i Hi. apply range_nth. replace (num_pages + 1 - 1) with num_pages by lia.
    exact Hi.
  - intros Hn. unfold scrape_movies_run.
    rewrite range_empty by lia. reflexivity.
Qed.

(** ** The output file *)

Lemma append_nil_r (s : string) : s +++ "" = s.
Proof. induction s as [|c s IH]; simpl; [reflexivity | now rewrite IH]. Qed.

Lemma append_assoc (a b c : string) : (a +++ b) +++ c = a +++ (b +++ c).
Proof. induction a as [|x a IH]; simpl; [reflexivity | now rewrite IH]. Qed.

Lemma on_one_line_app (a b : string) :
  on_one_line (a +++ b) = on_one_line a && on_one_line b.
Proof.
  unfold on_one_line. induction a as [|x a IH]; simpl; [reflexivity|].
  rewrite IH. now rewrite andb_assoc.
Qed.

(** A text without line break, then the line terminator: one line. *)
Lemma lines_from_row (current s rest : string) :
  on_one_line s = true ->
  lines_from current (s +++ Csv.lineterminator +++ rest)
  = (current +++ s) :: lines_from "" rest.
Proof.
  revert current. induction s as [|c s IH]; intros current H.
  - simpl. now rewrite append_nil_r.
  - unfold on_one_line in H. simpl in H. apply andb_prop in H.
    destruct H as [Hc Hs]. apply negb_true_iff, orb_false_iff in Hc.
    destruct Hc as [Hcr Hlf].
    simpl. rewrite Hcr, Hlf. rewrite (IH _ Hs), append_assoc. reflexivity.
Qed.

Lemma on_one_line_double_quotes (field : string) :
  on_one_line field = true -> on_one_line (Csv.double_quotes field) = true.
Proof.
  unfold on_one_line. induction field as [|c s IH]; [reflexivity|].
  simpl. intros H. apply andb_prop in H. destruct H as [Hc Hs].
  destruct (Ascii.eqb c Csv.quotechar); simpl; rewrite Hc, (IH Hs); reflexivity.
Qed.

Lemma on_one_line_format_field (field : string) :
  on_one_line field = true -> on_one_line (Csv.format_field field) = true.
Proof.
  intros H. unfold Csv.format_field.
  destruct (Csv.needs_quotes field); [|exact H].
  change (String Csv.quotechar
            (Csv.double_quotes field +++ String Csv.quotechar ""))
    with (String Csv.quotechar "" +++ Csv.double_quotes field
          +++ String Csv.quotechar "").
  rewrite !on_one_line_app, (on_one_line_double_quotes _ H). reflexivity.
Qed.

Lemma on_one_line_join (sep : string) (l : list string) :
  on_one_line sep = true ->
  forallb on_one_line l = true ->
  on_one_line (Str.join sep l) = true.
Proof.
  intros Hsep. unfold Str.join.
  induction l as [|x l IH]; [reflexivity|].
  intros H. apply andb_prop in H. destruct H as [Hx Hl].
  destruct l as [|y l]; [exact Hx|].
  change (String.concat sep (x :: y :: l))
    with (x +++ sep +++ String.concat sep (y :: l)).
  rewrite !on_one_line_app, Hx, Hsep, (IH Hl). reflexivity.
Qed.

Lemma on_one_line_row_text (fields : list string) :
  forallb on_one_line fields = true -> on_one_line (row_text fields) = true.
Proof.
  intros H. unfold row_text. apply on_one_line_join; [reflexivity|].
  rewrite forallb_forall in *. intros x Hx. apply in_map_iff in Hx.
  destruct Hx as (f & <- & Hf). apply on_one_line_format_field. now apply H.
Qed.

Lemma join_empty_cons (x : string) (l : list string) :
  Str.join "" (x :: l) = x +++ Str.join "" l.
Proof.
  unfold Str.join. destruct l; simpl; [now rewrite append_nil_r | reflexivity].
Qed.

Lemma format_row_text (fields : list string) :
  Csv.format_row fields = row_text fields +++ Csv.lineterminator.
Proof. reflexivity. Qed.

Lemma lines_of_rows (rows : list (list string)) :
  forallb (forallb on_one_line) rows = true ->
  lines_from "" (Str.join "" (map Csv.format_row rows)) = map row_text rows.
Proof.
  induction rows as [|fields rows IH]; [reflexivity|].
  simpl forallb. intros H. apply andb_prop in H. destruct H as [Hf Hrest].
  change (map Csv.format_row (fields :: rows))
    with (Csv.format_row fields :: map Csv.format_row rows).
  rewrite join_empty_cons, format_row_text, append_assoc.
  rewrite lines_from_row by (now apply on_one_line_row_text).
  simpl. now rewrite (IH Hrest).
Qed.

(** C8, as the code has it: for a list of records that is not empty and a
    file that can be opened, the file holds the header row and one row per
    record; its first line is the header; and it has one line more than
    there are records when no field holds a carriage return or a line feed.
    When the file cannot be opened nothing is written and the error is
    reported.  For the empty list nothing is written and this is
    reported. *)
Theorem save_to_csv_output (records : list movie) (filename : string)
    (d : disk) :
  (records <> [] -> denied d filename = None ->
   exists text,
     files (fst (save_to_csv records filename d)) filename = Some text
     /\ text =
        Str.join ""
          (map Csv.format_row (fieldnames :: map dict_to_list records))
     /\ hd_error (lines text) = Some "name,image_url,rating,genre"
     /\ (forallb fields_on_one_line records = true ->
         length (lines text) = (length records + 1)%nat)
     /\ snd (save_to_csv records filename d)
        = [Print (MsgSaved (length records) filename)])
  /\ (forall msg,
        records <> [] -> denied d filename = Some msg ->
        save_to_csv records filename d
        = (d, [Print (MsgSaveError (IOError msg))]))
  /\ (records = [] -> save_to_csv records filename d = (d, [Print MsgNoMovies])).
Proof.
  repeat split.
  - intros Hne Hopen.
    exists (Str.join ""
              (map Csv.format_row (fieldnames :: map dict_to_list records))).
    assert (Htext :
      save_to_csv records filename d
      = (write_file d filename
           (Str.join ""
              (map Csv.format_row (fieldnames :: map dict_to_list records))),
         [Print (MsgSaved (length records) filename)])).
    { unfold save_to_csv. destruct records as [|m records]; [congruence|].
      rewrite Hopen.
      change (map Csv.format_row (fieldnames :: map dict_to_list (m :: records)))
        with (Csv.format_row fieldnames
              :: map Csv.format_row (map dict_to_list (m :: records))).
      now rewrite join_empty_cons, map_map. }
    rewrite Htext. simpl fst. simpl snd. repeat split.
    + unfold write_file. simpl. now rewrite String.eqb_refl.
    + change (map Csv.format_row (fieldnames :: map dict_to_list records))
        with (Csv.format_row fieldnames
              :: map Csv.format_row (map dict_to_list records)).
      rewrite join_empty_cons, format_row_text, append_assoc.
      unfold lines. rewrite lines_from_row by reflexivity. reflexivity.
    + intros Hlines. unfold lines. rewrite lines_of_rows.
      * rewrite length_map. simpl. rewrite length_map. lia.
      * change (forallb on_one_line fieldnames
                && forallb (forallb on_one_line) (map dict_to_list records)
                = true).
        simpl. clear -Hlines.
        induction records as [|m records IH]; [reflexivity|].
        simpl in Hlines. apply andb_prop in Hlines. destruct Hlines as [Hm Hr].
        change (forallb on_one_line (dict_to_list m)
                && forallb (forallb on_one_line) (map dict_to_list records)
                = true).
        unfold fields_on_one_line in Hm. now rewrite Hm, (IH Hr).
  - intros msg Hne Hden. unfold save_to_csv.
    destruct records; [congruence|]. now rewrite Hden.
  - intros ->. reflexivity.
Qed.

(** ** The trace of a run *)

Lemma sessions_app (o : nat) (l1 l2 : list event) :
  sessions o (l1 ++ l2) =
  match sessions o l1 with
  | Some o' => sessions o' l2
  | None => None
  end.
Proof.
  revert o. induction l1 as [|e l1 IH]; intros o; [reflexivity|].
  destruct e; simpl; try apply IH.
  - destruct o; [apply IH | reflexivity].
  - destruct o as [|[|o]]; [reflexivity | apply IH | reflexivity].
Qed.

Lemma sessions_item_events (o : nat) (items : list Node) :
  sessions o (flat_map item_events items) = Some o.
Proof.
  induction items as [|item items IH]; [reflexivity|].
  rewrite flat_map_cons, sessions_app.
  assert (H : sessions o (item_events item) = Some o).
  { unfold item_events. destruct (image_of item); [|reflexivity].
    induction (item_records item); [reflexivity | assumption]. }
  now rewrite H.
Qed.

Lemma sessions_page_events (web : string -> render) (num_pages p : Z) :
  sessions 0 (page_events web num_pages p) = Some O.
Proof.
  unfold page_events.
  destruct (web (page_url p)) as [e|e|soup]; try reflexivity.
  cbn [app sessions]. rewrite sessions_app.
  assert (H : sessions 1
                match find_all "div" (Some "item") soup with
                | [] => [Print (MsgNoItems p)]
                | _ :: _ => []
                end = Some 1%nat)
    by (destruct (find_all "div" (Some "item") soup); reflexivity).
  rewrite H, sessions_app, sessions_item_events.
  destruct (p <? num_pages); reflexivity.
Qed.

Lemma sessions_pages (web : string -> render) (num_pages : Z)
    (pages : list Z) :
  sessions 0 (flat_map (page_events web num_pages) pages) = Some O.
Proof.
  induction pages as [|p pages IH]; [reflexivity|].
  now rewrite flat_map_cons, sessions_app, sessions_page_events.
Qed.

Lemma quits_app (l1 l2 : list event) : quits (l1 ++ l2) = (quits l1 + quits l2)%nat.
Proof. unfold quits. now rewrite filter_app, length_app. Qed.

Lemma quits_item_events (items : list Node) :
  quits (flat_map item_events items) = O.
Proof.
  induction items as [|item items IH]; [reflexivity|].
  rewrite flat_map_cons, quits_app, IH.
  unfold item_events. destruct (image_of item); [|reflexivity].
  induction (item_records item); [reflexivity | assumption].
Qed.

Lemma quits_page_events (web : string -> render) (num_pages p : Z) :
  quits (page_events web num_pages p)
  = if launched (web (page_url p)) then 1%nat else O.
Proof.
  unfold page_events.
  destruct (web (page_url p)) as [e|e|soup]; try reflexivity.
  rewrite !quits_app, quits_item_events.
  destruct (find_all "div" (Some "item") soup);
    destruct (p <? num_pages); reflexivity.
Qed.

Lemma quits_pages (web : string -> render) (num_pages : Z) (pages : list Z) :
  quits (flat_map (page_events web num_pages) pages)
  = length (filter (fun p => launched (web (page_url p))) pages).
Proof.
  induction pages as [|p pages IH]; [reflexivity|].
  rewrite flat_map_cons, quits_app, quits_page_events, IH. simpl.
  destruct (launched (web (page_url p))); reflexivity.
Qed.

(** X1: along the trace of a run no browser session is opened while another
    is open, none is closed that is not open, and none is open at the end;
    as many sessions are closed as pages had their browser launched. *)
Theorem sessions_are_closed (web : string -> render) (num_pages : Z) :
  sessions 0 (events (fst (scrape_movies_run web num_pages))) = Some O
  /\ quits (events (fst (scrape_movies_run web num_pages)))
     = length (filter (fun p => launched (web (page_url p)))
                 (range 1 (num_pages + 1))).
Proof.
  destruct (scrape_movies_run_spec web num_pages) as (st & Hrun & _ & He).
  rewrite Hrun. simpl fst. rewrite He. split.
  - apply sessions_pages.
  - apply quits_pages.
Qed.

Lemma sleeps_app (l1 l2 : list event) : sleeps (l1 ++ l2) = sleeps l1 ++ sleeps l2.
Proof. unfold sleeps. apply flat_map_app. Qed.

Lemma sleeps_item_events (items : list Node) :
  sleeps (flat_map item_events items) = [].
Proof.
  induction items as [|item items IH]; [reflexivity|].
  rewrite flat_map_cons, sleeps_app, IH, app_nil_r.
  unfold item_events. destruct (image_of item); [|reflexivity].
  induction (item_records item); [reflexivity | assumption].
Qed.

Lemma sleeps_page_events (web : string -> render) (num_pages p : Z) :
  sleeps (page_events web num_pages p)
  = if negb (render_failed (web (page_url p))) && (p <? num_pages)
    then [1] else [].
Proof.
  unfold page_events.
  destruct (web (page_url p)) as [e|e|soup]; try reflexivity.
  rewrite !sleeps_app, sleeps_item_events.
  destruct (find_all "div" (Some "item") soup);
    destruct (p <? num_pages); reflexivity.
Qed.

Lemma sleeps_pages (web : string -> render) (num_pages : Z) (pages : list Z) :
  sleeps (flat_map (page_events web num_pages) pages)
  = map (fun _ => 1)
      (filter (fun p => negb (render_failed (web (page_url p)))
                        && (p <? num_pages)) pages).
Proof.
  induction pages as [|p pages IH]; [reflexivity|].
  rewrite flat_map_cons, sleeps_app, sleeps_page_events, IH. simpl.
  destruct (negb (render_failed (web (page_url p))) && (p <? num_pages));
    reflexivity.
Qed.

(** X2: the run pauses for one second once for every page that rendered and
    is not the last page, and at no other time: not after the last page and
    not after a page whose rendering failed. *)
Theorem pauses_follow_rendered_pages (web : string -> render)
    (num_pages : Z) :
  sleeps (events (fst (scrape_movies_run web num_pages)))
  = map (fun _ => 1)
      (filter (fun p => negb (render_failed (web (page_url p)))
                        && (p <? num_pages))
         (range 1 (num_pages + 1))).
Proof.
  destruct (scrape_movies_run_spec web num_pages) as (st & Hrun & _ & He).
  rewrite Hrun. simpl fst. rewrite He. apply sleeps_pages.
Qed.

Lemma found_app (l1 l2 : list event) : found (l1 ++ l2) = found l1 ++ found l2.
Proof. unfold found. apply flat_map_app. Qed.

Lemma found_item_events (items : list Node) :
  found (flat_map item_events items)
  = map (fun m => (name m, rating m)) (flat_map item_records items).
Proof.
  induction items as [|item items IH]; [reflexivity|].
  rewrite !flat_map_cons, found_app, map_app, IH. f_equal.
  unfold item_events, item_records.
  destruct (image_of item) as [u|e]; [|reflexivity].
  destruct (String.eqb u "N/A"); reflexivity.
Qed.

Lemma found_page_events (web : string -> render) (num_pages p : Z) :
  found (page_events web num_pages p)
  = map (fun m => (name m, rating m)) (page_records (web (page_url p))).
Proof.
  unfold page_events, page_records, extract.
  destruct (web (page_url p)) as [e|e|soup]; try reflexivity.
  rewrite !found_app, found_item_events.
  destruct (find_all "div" (Some "item") soup);
    destruct (p <? num_pages); simpl; now rewrite ?app_nil_r.
Qed.

Lemma found_pages (web : string -> render) (num_pages : Z) (pages : list Z) :
  found (flat_map (page_events web num_pages) pages)
  = map (fun m => (name m, rating m))
      (flat_map (fun p => page_records (web (page_url p))) pages).
Proof.
  induction pages as [|p pages IH]; [reflexivity|].
  now rewrite !flat_map_cons, found_app, map_app, found_page_events, IH.
Qed.

(** X3: the run announces each record it returns exactly once, in the order
    of the result and with the name and the rating of the record, and it
    announces nothing else as found. *)
Theorem found_messages_match_result (web : string -> render)
    (num_pages : Z) :
  exists st,
    scrape_movies_run web num_pages = (st, Ok (movies st))
    /\ found (events st) = map (fun m => (name m, rating m)) (movies st).
Proof.
  destruct (scrape_movies_run_spec web num_pages) as (st & Hrun & Hm & He).
  exists st. split; [exact Hrun|]. rewrite He, Hm. apply found_pages.
Qed.

Lemma item_records_le_one (item : Node) : (length (item_records item) <= 1)%nat.
Proof.
  unfold item_records. destruct (image_of item) as [u|e]; [|simpl; lia].
  destruct (String.eqb u "N/A"); simpl; lia.
Qed.

Lemma records_le_items (items : list Node) :
  (length (flat_map item_records items) <= length items)%nat.
Proof.
  induction items as [|item items IH]; [simpl; lia|].
  rewrite flat_map_cons, length_app. simpl.
  pose proof (item_records_le_one item). lia.
Qed.

Lemma item_errors_app (l1 l2 : list event) :
  item_errors (l1 ++ l2) = item_errors l1 ++ item_errors l2.
Proof. unfold item_errors. apply flat_map_app. Qed.

Lemma item_accounting_one (item : Node) :
  (length (item_records item) + length (item_errors (item_events item))
   + (if match image_of item with
         | Ok u => String.eqb u "N/A"
         | Raise _ => false
         end then 1 else 0)
   = 1)%nat.
Proof.
  unfold item_events, item_records.
  destruct (image_of item) as [u|e]; [destruct (String.eqb u "N/A")|];
    reflexivity.
Qed.

Lemma item_accounting (items : list Node) :
  (length (flat_map item_records items)
   + length (item_errors (flat_map item_events items))
   + length (filter (fun item => match image_of item with
                                 | Ok u => String.eqb u "N/A"
                                 | Raise _ => false
                                 end) items)
   = length items)%nat.
Proof.
  induction items as [|item items IH]; [reflexivity|].
  rewrite !flat_map_cons, item_errors_app, !length_app. simpl filter.
  pose proof (item_accounting_one item) as H1.
  destruct (match image_of item with
            | Ok u => String.eqb u "N/A"
            | Raise _ => false
            end); simpl length; lia.
Qed.

(** ** URL resolution against the base URL *)

Lemma urlunsplit_scheme (sch nl url qry frag : string) :
  Str.nonempty sch = true ->
  exists rest, Urllib.urlunsplit sch nl url qry frag = sch +++ ":" +++ rest.
Proof.
  intros H. unfold Urllib.urlunsplit. rewrite H.
  set (u := if Str.nonempty nl
               || (true && Urllib.mem sch Urllib.uses_netloc
                   && negb (Str.startswith "//" url))
            then "//" +++ nl +++
                 (if Str.nonempty url && negb (Str.startswith "/" url)
                  then "/" +++ url else url)
            else url).
  destruct (Str.nonempty qry), (Str.nonempty frag).
  - exists (u +++ "?" +++ qry +++ "#" +++ frag).
    now rewrite !append_assoc.
  - exists (u +++ "?" +++ qry). now rewrite !append_assoc.
  - exists (u +++ "#" +++ frag). now rewrite !append_assoc.
  - exists u. reflexivity.
Qed.

Lemma urlunparse_https (p : Urllib.ParseResult) :
  Urllib.scheme p = "https" ->
  exists rest, Urllib.urlunparse p = "https:" +++ rest.
Proof.
  intros H. unfold Urllib.urlunparse. rewrite H.
  match goal with
  | |- context [Urllib.urlunsplit "https" ?n ?u ?q ?f] =>
      destruct (urlunsplit_scheme "https" n u q f eq_refl) as (rest & ->)
  end.
  exists rest. reflexivity.
Qed.

Lemma urlparse_base :
  Urllib.urlparse BASE_URL ""
  = Ok (Urllib.mkParse "https" "ssr1.scrape.center" "" "" "" "").
Proof. reflexivity. Qed.

(** What [urljoin] returns for the base URL of the program is the reference
    itself, the base URL, or a URL with the scheme of the base. *)
Lemma urljoin_base_cases (s u : string) :
  Urllib.urljoin BASE_URL s = Ok u ->
  u = s \/ u = BASE_URL \/ exists rest, u = "https:" +++ rest.
Proof.
  unfold Urllib.urljoin. change (negb (Str.nonempty BASE_URL)) with false.
  cbv iota. destruct (negb (Str.nonempty s)).
  { intros H. inversion H. auto. }
  rewrite urlparse_base. unfold rbind at 1.
  destruct (Urllib.urlparse s (Urllib.scheme _)) as [p|e]; [|discriminate].
  unfold rbind. cbn [Urllib.scheme Urllib.netloc Urllib.path Urllib.params
                      Urllib.query Urllib.fragment].
  destruct (String.eqb (Urllib.scheme p) "https") eqn:Hs.
  2:{ simpl. intros H. inversion H. auto. }
  apply String.eqb_eq in Hs.
  destruct (negb true || negb (Urllib.mem (Urllib.scheme p) Urllib.uses_relative)).
  { intros H. inversion H. auto. }
  destruct (Urllib.mem (Urllib.scheme p) Urllib.uses_netloc
            && Str.nonempty (Urllib.netloc p)).
  { intros H. inversion H. right. right. now apply urlunparse_https. }
  destruct (negb (Str.nonempty (Urllib.path p))
            && negb (Str.nonempty (Urllib.params p)));
    intros H; inversion H; right; right; apply urlunparse_https; exact Hs.
Qed.

Lemma urljoin_base_not_sentinel (s u : string) :
  Urllib.urljoin BASE_URL s = Ok u -> u <> "N/A".
Proof.
  intros H. destruct (String.eqb_spec s "N/A") as [->|Hne].
  - vm_compute in H. inversion H. discriminate.
  - destruct (urljoin_base_cases _ _ H) as [-> | [-> | (rest & ->)]];
      [exact Hne | discriminate | discriminate].
Qed.

Lemma image_of_sentinel (item : Node) :
  image_of item = Ok "N/A" <-> has_source item = false.
Proof.
  unfold image_of, has_source. destruct (img_src item) as [src|]; [|tauto].
  destruct (Str.nonempty src) eqn:Hne; [|tauto].
  split; [|discriminate]. intros H.
  destruct (negb (Str.startswith "http" src)) eqn:Hp.
  - now apply urljoin_base_not_sentinel in H.
  - inversion H; subst. discriminate.
Qed.

Lemma gate_test_is_source (item : Node) :
  match image_of item with
  | Ok u => String.eqb u "N/A"
  | Raise _ => false
  end = negb (has_source item) && match image_of item with
                                  | Ok _ => true
                                  | Raise _ => false
                                  end.
Proof.
  destruct (image_of item) as [u|e] eqn:Hi.
  - rewrite andb_true_r. destruct (String.eqb_spec u "N/A") as [->|Hne].
    + apply image_of_sentinel in Hi. now rewrite Hi.
    + destruct (has_source item) eqn:Hs; [reflexivity|].
      apply image_of_sentinel in Hs. congruence.
  - now rewrite andb_false_r.
Qed.

Lemma no_source_no_fault (item : Node) :
  has_source item = false -> image_of item = Ok "N/A".
Proof. apply image_of_sentinel. Qed.

(** X4: an item whose first image element has a [src] that is present and
    not empty is never dropped silently.  It adds exactly one record, or the
    resolution of its URL raises and the fault is reported.  Any other item
    adds nothing and reports nothing, also when a later image element of it
    has a source. *)
Theorem gate_drops_only_items_without_source (item : Node) (st : state) :
  let st' := exec (item_iteration item) st in
  (has_source item = true ->
   (exists r, movies st' = movies st ++ [r] /\ events st'
              = events st ++ [Print (MsgFound (name r) (rating r))])
   \/ (exists e, movies st' = movies st
                 /\ events st' = events st ++ [Print (MsgItemError e)]))
  /\ (has_source item = false ->
      movies st' = movies st /\ events st' = events st).
Proof.
  intros st'. subst st'. unfold exec. rewrite item_iteration_run.
  cbn [fst]. rewrite after_item_movies, after_item_events.
  unfold item_events, item_records. split.
  - intros Hs. destruct (image_of item) as [u|e] eqn:Hi.
    + left. destruct (String.eqb_spec u "N/A") as [->|Hne].
      * apply image_of_sentinel in Hi. congruence.
      * eexists. split; reflexivity.
    + right. exists e. rewrite app_nil_r. split; reflexivity.
  - intros Hs. rewrite (no_source_no_fault _ Hs). simpl.
    now rewrite !app_nil_r.
Qed.

Lemma gate_test_eq (item : Node) :
  match image_of item with
  | Ok u => String.eqb u "N/A"
  | Raise _ => false
  end = negb (has_source item).
Proof.
  destruct (has_source item) eqn:Hs.
  - destruct (image_of item) as [u|e] eqn:Hi; [|reflexivity].
    destruct (String.eqb_spec u "N/A") as [->|Hne]; [|reflexivity].
    apply image_of_sentinel in Hi. congruence.
  - now rewrite (no_source_no_fault _ Hs).
Qed.

(** X5: over the item loop of a page every container is accounted for: the
    records added, the faults reported and the containers whose first image
    element is missing or has no [src] or an empty one add up to the number
    of containers. *)
Theorem every_item_is_accounted (items : list Node) (st : state) :
  let st' := exec (for_each items item_iteration) st in
  (length (movies st') + length (item_errors (events st'))
   + length (filter (fun item => negb (has_source item)) items)
   = length (movies st) + length (item_errors (events st)) + length items)%nat.
Proof.
  intros st'. subst st'. unfold exec.
  destruct (item_loop_run items st) as (st' & Hrun & Hm & He & _).
  rewrite Hrun. cbn [fst]. rewrite Hm, He, item_errors_app, !length_app.
  pose proof (item_accounting items) as H.
  rewrite (filter_ext _ _ gate_test_eq) in H. lia.
Qed.

(** ** Stripped text *)

Lemma lstrip_clean (p : ascii -> bool) (s : string) :
  starts_clean p s = true -> Str.lstrip_by p s = s.
Proof.
  destruct s as [|c r]; [reflexivity|]. simpl. intros H.
  apply negb_true_iff in H. now rewrite H.
Qed.

Lemma rstrip_clean (p : ascii -> bool) (s : string) :
  ends_clean p s = true -> Str.rstrip_by p s = s.
Proof.
  induction s as [|c r IH]; [reflexivity|].
  destruct r as [|c' r'].
  - simpl. intros H. apply negb_true_iff in H. now rewrite H.
  - intros H. change (ends_clean p (String c' r') = true) in H.
    change (Str.rstrip_by p (String c (String c' r')))
      with (match Str.rstrip_by p (String c' r') with
            | EmptyString => if p c then EmptyString else String c EmptyString
            | r0 => String c r0
            end).
    now rewrite (IH H).
Qed.

Lemma lstrip_starts_clean (p : ascii -> bool) (s : string) :
  starts_clean p (Str.lstrip_by p s) = true.
Proof.
  induction s as [|c r IH]; [reflexivity|]. simpl.
  destruct (p c) eqn:Hc; [exact IH|]. simpl. now rewrite Hc.
Qed.

Lemma rstrip_ends_clean (p : ascii -> bool) (s : string) :
  ends_clean p (Str.rstrip_by p s) = true.
Proof.
  induction s as [|c r IH]; [reflexivity|]. simpl.
  destruct (Str.rstrip_by p r) as [|c' r'] eqn:Hr.
  - destruct (p c) eqn:Hc; [reflexivity|]. simpl. now rewrite Hc.
  - exact IH.
Qed.

Lemma rstrip_starts_clean (p : ascii -> bool) (s : string) :
  starts_clean p s = true -> starts_clean p (Str.rstrip_by p s) = true.
Proof.
  destruct s as [|c r]; [reflexivity|]. simpl. intros H.
  destruct (Str.rstrip_by p r); [|exact H].
  apply negb_true_iff in H. rewrite H. simpl. now rewrite H.
Qed.

Lemma strip_clean (s : string) :
  starts_clean Str.isspace (Str.strip s) = true
  /\ ends_clean Str.isspace (Str.strip s) = true.
Proof.
  unfold Str.strip, Str.strip_by. split.
  - apply rstrip_starts_clean, lstrip_starts_clean.
  - apply rstrip_ends_clean.
Qed.

Lemma clean_is_stripped (s : string) :
  starts_clean Str.isspace s = true -> ends_clean Str.isspace s = true ->
  Str.strip s = s.
Proof.
  intros Hs He. unfold Str.strip, Str.strip_by.
  rewrite (lstrip_clean _ _ Hs). now apply rstrip_clean.
Qed.

Lemma strip_idempotent (s : string) : Str.strip (Str.strip s) = Str.strip s.
Proof. destruct (strip_clean s). now apply clean_is_stripped. Qed.

Lemma starts_clean_app (p : ascii -> bool) (a b : string) :
  Str.nonempty a = true -> starts_clean p (a +++ b) = starts_clean p a.
Proof. destruct a; [discriminate | reflexivity]. Qed.

Lemma ends_clean_app (p : ascii -> bool) (a b : string) :
  Str.nonempty b = true -> ends_clean p (a +++ b) = ends_clean p b.
Proof.
  intros Hb. induction a as [|c a IH]; [reflexivity|].
  simpl. destruct (a +++ b) eqn:Hab; [|exact IH].
  destruct a; [|discriminate]. simpl in Hab. subst b. discriminate.
Qed.

Lemma join_pieces_clean (p : ascii -> bool) (pieces : list string) :
  (forall x, In x pieces ->
             Str.nonempty x = true /\ starts_clean p x = true
             /\ ends_clean p x = true) ->
  starts_clean p (Str.join "" pieces) = true
  /\ ends_clean p (Str.join "" pieces) = true.
Proof.
  induction pieces as [|x pieces IH]; intros H; [split; reflexivity|].
  rewrite join_empty_cons.
  destruct (H x (or_introl eq_refl)) as (Hne & Hs & He).
  destruct (IH (fun y Hy => H y (or_intror Hy))) as [IHs IHe].
  split.
  - now rewrite starts_clean_app.
  - destruct (Str.nonempty (Str.join "" pieces)) eqn:Hrest.
    + now rewrite ends_clean_app.
    + destruct (Str.join "" pieces); [|discriminate].
      now rewrite append_nil_r.
Qed.

Lemma get_text_strip_stripped (e : Node) :
  Str.strip (get_text_strip e) = get_text_strip e.
Proof.
  unfold get_text_strip.
  destruct (join_pieces_clean Str.isspace
              (filter Str.nonempty
                 (map Str.strip (flat_map text_of (descendants e)))))
    as [Hs He].
  - intros x Hx. apply filter_In in Hx. destruct Hx as [Hin Hne].
    apply in_map_iff in Hin. destruct Hin as (y & <- & _).
    destruct (strip_clean y). auto.
  - now apply clean_is_stripped.
Qed.

(** X6: the name and the rating of every record are stored stripped:
    stripping them again changes nothing, so neither begins nor ends with
    white space. *)
Theorem name_and_rating_are_stripped (item : Node) (st : state) (r : movie) :
  movies (exec (item_iteration item) st) = movies st ++ [r] ->
  (Str.strip (name r) = name r /\ Str.strip (rating r) = rating r)
  /\ starts_clean Str.isspace (name r) = true
  /\ ends_clean Str.isspace (name r) = true
  /\ starts_clean Str.isspace (rating r) = true
  /\ ends_clean Str.isspace (rating r) = true.
Proof.
  intros H. destruct (emitted_record _ _ _ H) as (u & _ & _ & ->). simpl.
  assert (Hfix : Str.strip (name_of item) = name_of item
                 /\ Str.strip (rating_of item) = rating_of item);
    [|destruct Hfix as [Hn Hr]; split; [now split|];
      rewrite <- Hn, <- Hr;
      destruct (strip_clean (name_of item)), (strip_clean (rating_of item));
      auto].
  split.
  - unfold name_of. destruct (linked_element item) as [e|]; [|reflexivity].
    destruct (get "title" e) as [t|]; [destruct (Str.nonempty t)|];
      auto using strip_idempotent, get_text_strip_stripped.
  - unfold rating_of. destruct (find "p" (Some "score") item);
      [apply get_text_strip_stripped | reflexivity].
Qed.

(** ** Paths from the root of the site *)

Lemma contains_false_forallb (c : ascii) (p : ascii -> bool) (s : string) :
  p c = true -> Str.forallb (fun x => negb (p x)) s = true ->
  Str.contains c s = false.
Proof.
  intros Hc. induction s as [|a r IH]; [reflexivity|].
  simpl. intros H. apply andb_prop in H. destruct H as [Ha Hr].
  rewrite (IH Hr), orb_false_r. destruct (Ascii.eqb_spec a c) as [->|]; [|reflexivity].
  rewrite Hc in Ha. discriminate.
Qed.

Lemma partition_absent (c : ascii) (s : string) :
  Str.contains c s = false -> Str.partition c s = None.
Proof.
  induction s as [|a r IH]; [reflexivity|]. simpl. intros H.
  apply orb_false_iff in H. destruct H as [Ha Hr].
  now rewrite Ha, (IH Hr).
Qed.

Lemma remove_char_absent (p : ascii -> bool) (s : string) :
  Str.forallb (fun x => negb (p x)) s = true -> Str.remove_char p s = s.
Proof.
  induction s as [|a r IH]; [reflexivity|]. simpl. intros H.
  apply andb_prop in H. destruct H as [Ha Hr].
  apply negb_true_iff in Ha. now rewrite Ha, (IH Hr).
Qed.

Lemma forallb_weaken (p q : ascii -> bool) (s : string) :
  (forall c, p c = true -> q c = true) ->
  Str.forallb p s = true -> Str.forallb q s = true.
Proof.
  intros Hpq. induction s as [|a r IH]; [reflexivity|]. simpl. intros H.
  apply andb_prop in H. destruct H as [Ha Hr]. now rewrite (Hpq _ Ha), (IH Hr).
Qed.

Lemma split_not_nil (c : ascii) (s : string) : Str.split c s <> [].
Proof.
  destruct s as [|a r]; simpl; [discriminate|].
  destruct (Ascii.eqb a c); [discriminate|].
  destruct (Str.split c r); discriminate.
Qed.

(** Splitting at a character and joining with it gives the text back. *)
Lemma join_split (c : ascii) (s : string) :
  Str.join (String c "") (Str.split c s) = s.
Proof.
  unfold Str.join. induction s as [|a r IH]; [reflexivity|].
  simpl. pose proof (split_not_nil c r) as Hne.
  destruct (Ascii.eqb_spec a c) as [->|Hac].
  - destruct (Str.split c r) as [|h t] eqn:Hsp; [congruence|].
    change (String.concat (String c "") ("" :: h :: t))
      with (String c (String.concat (String c "") (h :: t))).
    now rewrite IH.
  - destruct (Str.split c r) as [|h t] eqn:Hsp; [congruence|].
    destruct t as [|h' t].
    + simpl in *. now rewrite IH.
    + change (String.concat (String c "") (String a h :: h' :: t))
        with (String a (String.concat (String c "") (h :: h' :: t))).
      now rewrite IH.
Qed.

Lemma resolve_segments_plain (segments acc : list string) :
  forallb (fun seg => negb (dot_segment seg)) segments = true ->
  fold_left
    (fun resolved seg =>
       if String.eqb seg ".." then removelast resolved
       else if String.eqb seg "." then resolved
       else resolved ++ [seg])
    segments acc
  = acc ++ segments.
Proof.
  revert acc. induction segments as [|seg segments IH]; intros acc H.
  - now rewrite app_nil_r.
  - simpl in H. apply andb_prop in H. destruct H as [Hseg Hrest].
    unfold dot_segment in Hseg. apply negb_true_iff, orb_false_iff in Hseg.
    destruct Hseg as [H1 H2]. simpl. rewrite H1, H2, (IH _ Hrest).
    now rewrite <- app_assoc.
Qed.

Lemma last_not_dot (segments : list string) :
  segments <> [] ->
  forallb (fun seg => negb (dot_segment seg)) segments = true ->
  dot_segment (last segments "") = false.
Proof.
  intros Hne H. rewrite forallb_forall in H.
  destruct (exists_last Hne) as (l & x & ->). rewrite last_last.
  apply negb_true_iff, H, in_or_app. right. now left.
Qed.

Lemma startswith_slash (c : ascii) (p : string) :
  Str.startswith "/" (String c p) = true -> c = "/"%char.
Proof.
  unfold Str.startswith. cbn [String.prefix].
  destruct (ascii_dec "/" c); congruence.
Qed.

Lemma urlparse_rooted_path (src : string) :
  rooted_path src = true ->
  Urllib.urlparse src "https" = Ok (Urllib.mkParse "https" "" src "" "" "").
Proof.
  unfold rooted_path. intros H.
  apply andb_prop in H. destruct H as [H Hseg].
  apply andb_prop in H. destruct H as [H Hchars].
  apply andb_prop in H. destruct H as [Hslash Hslash2].
  apply negb_true_iff in Hslash2.
  destruct src as [|c0 p]; [discriminate|].
  assert (c0 = "/"%char) as ->.
  { now apply startswith_slash in Hslash. }
  assert (Hq : Str.contains "?" (String "/" p) = false)
    by (apply (contains_false_forallb _ path_breaking); [reflexivity | exact Hchars]).
  assert (Hh : Str.contains "#" (String "/" p) = false)
    by (apply (contains_false_forallb _ path_breaking); [reflexivity | exact Hchars]).
  assert (Hsc : Str.contains ";" (String "/" p) = false)
    by (apply (contains_false_forallb _ path_breaking); [reflexivity | exact Hchars]).
  assert (Hun : Str.remove_char Urllib.unsafe_byte (String "/" p) = String "/" p).
  { apply remove_char_absent. revert Hchars. apply forallb_weaken.
    intros c Hc. unfold path_breaking in Hc.
    apply negb_true_iff, orb_false_iff in Hc. destruct Hc as [_ Hc].
    now rewrite Hc. }
  unfold Urllib.urlparse, Urllib.urlsplit.
  change (Str.lstrip_by Urllib.c0_control_or_space (String "/" p))
    with (String "/" p).
  change (Str.remove_char Urllib.unsafe_byte
            (Str.strip_by Urllib.c0_control_or_space "https"))
    with "https".
  rewrite Hun.
  assert (Hss : Urllib.split_scheme "https" (String "/" p)
                = ("https", String "/" p)).
  { unfold Urllib.split_scheme. simpl.
    destruct (Str.partition ":" p) as [[h t]|]; reflexivity. }
  rewrite Hss, Hslash2. unfold rbind at 2.
  rewrite (partition_absent _ _ Hh), (partition_absent _ _ Hq).
  change (Urllib.checknetloc "") with (@Ok unit tt).
  unfold rbind. cbn [Urllib.s_scheme Urllib.s_netloc Urllib.s_path
                      Urllib.s_query Urllib.s_fragment].
  rewrite Hsc, andb_false_r. reflexivity.
Qed.

Lemma urljoin_rooted_path (src : string) :
  rooted_path src = true ->
  Urllib.urljoin BASE_URL src = Ok (BASE_URL +++ src).
Proof.
  intros H. pose proof (urlparse_rooted_path _ H) as Hp.
  unfold rooted_path in H.
  apply andb_prop in H. destruct H as [H Hseg].
  apply andb_prop in H. destruct H as [H _].
  apply andb_prop in H. destruct H as [Hslash _].
  unfold Urllib.urljoin. change (negb (Str.nonempty BASE_URL)) with false.
  cbv iota. destruct src as [|c0 p]; [discriminate|].
  change (negb (Str.nonempty (String c0 p))) with false. cbv iota.
  rewrite urlparse_base. unfold rbind at 1.
  cbn [Urllib.scheme]. rewrite Hp. unfold rbind.
  cbn [Urllib.scheme Urllib.netloc Urllib.path Urllib.params Urllib.query
       Urllib.fragment].
  change (negb ("https" =? "https")%string
          || negb (Urllib.mem "https" Urllib.uses_relative)) with false.
  change (Urllib.mem "https" Urllib.uses_netloc && Str.nonempty "") with false.
  change (negb (Str.nonempty (String c0 p)) && negb (Str.nonempty ""))
    with false.
  cbv iota. rewrite Hslash.
  unfold Urllib.resolve_segments.
  rewrite (resolve_segments_plain _ [] Hseg). cbn [app].
  pose proof (last_not_dot _ (split_not_nil "/" (String c0 p)) Hseg) as Hl.
  unfold dot_segment in Hl. rewrite Hl.
  change "/" with (String "/" "") at 2 3. rewrite join_split.
  change (Str.nonempty (String c0 p)) with true. cbv iota.
  unfold Urllib.urlunparse, Urllib.urlunsplit.
  cbn [Urllib.scheme Urllib.netloc Urllib.path Urllib.params Urllib.query
       Urllib.fragment].
  change (Urllib.mem "https" Urllib.uses_netloc) with true. cbv iota.
  change (Str.nonempty "ssr1.scrape.center") with true.
  change (Str.nonempty "") with false.
  change (Str.nonempty "https") with true.
  change (Str.nonempty (String c0 p)) with true.
  cbn [orb andb negb]. cbv iota.
  rewrite Hslash. cbn [orb andb negb]. cbv iota. reflexivity.
Qed.

(** X7: an image source that is a path from the root of the site (one
    leading slash, no dot segment, no query, fragment, parameter, tab or
    line break) is emitted as the base URL followed by that path. *)
Theorem rooted_path_is_appended_to_base (item : Node) (st : state)
    (src : string) :
  img_src item = Some src ->
  rooted_path src = true ->
  movies (exec (item_iteration item) st)
  = movies st
    ++ [mkMovie (name_of item) (BASE_URL +++ src) (rating_of item)
          (genre_of item)].
Proof.
  intros Hsrc Hroot.
  rewrite item_iteration_movies. f_equal.
  assert (Hi : image_of item = Ok (BASE_URL +++ src)).
  { unfold image_of. rewrite Hsrc.
    pose proof Hroot as H. unfold rooted_path in H.
    apply andb_prop in H. destruct H as [H _].
    apply andb_prop in H. destruct H as [H _].
    apply andb_prop in H. destruct H as [Hslash _].
    destruct src as [|c0 p]; [discriminate|].
    assert (c0 = "/"%char) as ->.
    { now apply startswith_slash in Hslash. }
    change (Str.nonempty (String "/" p)) with true. cbv iota.
    change (negb (Str.startswith "http" (String "/" p))) with true.
    cbv iota. now apply urljoin_rooted_path. }
  unfold item_records. rewrite Hi. reflexivity.
Qed.

(** ** The file can be read back *)

Lemma read_plain_field (f cur : string) (row : list string)
    (rows : list (list string)) (rest : string) :
  Csv.needs_quotes f = false ->
  read_rows Plain cur row rows (f +++ rest)
  = read_rows Plain (cur +++ f) row rows rest.
Proof.
  revert cur. induction f as [|c f IH]; intros cur H.
  - now rewrite append_nil_r.
  - simpl in H. apply orb_false_iff in H. destruct H as [Hc Hf].
    unfold Csv.special in Hc.
    apply orb_false_iff in Hc. destruct Hc as [Hc Hlf].
    apply orb_false_iff in Hc. destruct Hc as [Hc Hcr].
    apply orb_false_iff in Hc. destruct Hc as [Hcomma Hq].
    cbn [String.append read_rows].
    rewrite Hcomma, Hcr, Hq, Hlf, (IH _ Hf), append_assoc.
    reflexivity.
Qed.

Lemma read_quoted_field (f cur : string) (row : list string)
    (rows : list (list string)) (rest : string) :
  read_rows Quoted cur row rows
    (Csv.double_quotes f +++ String Csv.quotechar rest)
  = read_rows AfterQuote (cur +++ f) row rows rest.
Proof.
  revert cur. induction f as [|c f IH]; intros cur.
  - simpl. now rewrite append_nil_r.
  - cbn [Csv.double_quotes].
    destruct (Ascii.eqb c Csv.quotechar) eqn:Hc.
    + apply Ascii.eqb_eq in Hc. subst c.
      change (read_rows Quoted cur row rows
                (String Csv.quotechar (String Csv.quotechar
                                         (Csv.double_quotes f))
                 +++ String Csv.quotechar rest))
        with (read_rows Quoted (cur +++ String Csv.quotechar "") row rows
                (Csv.double_quotes f +++ String Csv.quotechar rest)).
      now rewrite IH, append_assoc.
    + cbn [String.append read_rows]. rewrite Hc.
      now rewrite IH, append_assoc.
Qed.

Lemma read_field_comma (f : string) (row : list string)
    (rows : list (list string)) (rest : string) :
  read_rows Plain "" row rows (Csv.format_field f +++ String "," rest)
  = read_rows Plain "" (row ++ [f]) rows rest.
Proof.
  unfold Csv.format_field. destruct (Csv.needs_quotes f) eqn:Hq.
  - change (String Csv.quotechar
              (Csv.double_quotes f +++ String Csv.quotechar "")
            +++ String "," rest)
      with (String Csv.quotechar
              ((Csv.double_quotes f +++ String Csv.quotechar "")
               +++ String "," rest)).
    rewrite append_assoc.
    change (String Csv.quotechar "" +++ String "," rest)
      with (String Csv.quotechar (String "," rest)).
    change (read_rows Plain "" row rows
              (String Csv.quotechar
                 (Csv.double_quotes f
                  +++ String Csv.quotechar (String "," rest))))
      with (read_rows Quoted "" row rows
              (Csv.double_quotes f
               +++ String Csv.quotechar (String "," rest))).
    rewrite read_quoted_field. reflexivity.
  - rewrite read_plain_field by exact Hq. reflexivity.
Qed.

Lemma read_field_end (f : string) (row : list string)
    (rows : list (list string)) (rest : string) :
  read_rows Plain "" row rows
    (Csv.format_field f +++ Csv.lineterminator +++ rest)
  = read_rows Plain "" [] (rows ++ [row ++ [f]]) rest.
Proof.
  unfold Csv.format_field. destruct (Csv.needs_quotes f) eqn:Hq.
  - change (String Csv.quotechar
              (Csv.double_quotes f +++ String Csv.quotechar "")
            +++ Csv.lineterminator +++ rest)
      with (String Csv.quotechar
              ((Csv.double_quotes f +++ String Csv.quotechar "")
               +++ Csv.lineterminator +++ rest)).
    rewrite append_assoc.
    change (String Csv.quotechar "" +++ Csv.lineterminator +++ rest)
      with (String Csv.quotechar (Csv.lineterminator +++ rest)).
    change (read_rows Plain "" row rows
              (String Csv.quotechar
                 (Csv.double_quotes f
                  +++ String Csv.quotechar (Csv.lineterminator +++ rest))))
      with (read_rows Quoted "" row rows
              (Csv.double_quotes f
               +++ String Csv.quotechar (Csv.lineterminator +++ rest))).
    rewrite read_quoted_field. reflexivity.
  - rewrite read_plain_field by exact Hq. reflexivity.
Qed.

Lemma read_row (fields : list string) (row : list string)
    (rows : list (list string)) (rest : string) :
  fields <> [] ->
  read_rows Plain "" row rows (Csv.format_row fields +++ rest)
  = read_rows Plain "" [] (rows ++ [row ++ fields]) rest.
Proof.
  unfold Csv.format_row, Str.join. rewrite append_assoc.
  revert row. induction fields as [|f fields IH]; intros row Hne; [congruence|].
  destruct fields as [|g fields].
  - simpl map. simpl String.concat. apply read_field_end.
  - change (String.concat Csv.delimiter
              (map Csv.format_field (f :: g :: fields)))
      with (Csv.format_field f +++ String "," ""
            +++ String.concat Csv.delimiter
                  (map Csv.format_field (g :: fields))).
    rewrite !append_assoc.
    change (String "," "" +++
            String.concat Csv.delimiter (map Csv.format_field (g :: fields))
            +++ Csv.lineterminator +++ rest)
      with (String ","
              (String.concat Csv.delimiter
                 (map Csv.format_field (g :: fields))
               +++ Csv.lineterminator +++ rest)).
    rewrite read_field_comma, IH by discriminate.
    now rewrite <- app_assoc.
Qed.

Lemma read_all_rows (table rows : list (list string)) :
  (forall fields, In fields table -> fields <> []) ->
  read_rows Plain "" [] rows (Str.join "" (map Csv.format_row table))
  = Some (rows ++ table).
Proof.
  revert rows. induction table as [|fields table IH]; intros rows H.
  - simpl. now rewrite app_nil_r.
  - change (map Csv.format_row (fields :: table))
      with (Csv.format_row fields :: map Csv.format_row table).
    rewrite join_empty_cons, read_row by (apply H; now left).
    rewrite IH by (intros x Hx; apply H; now right).
    now rewrite <- app_assoc.
Qed.

Lemma read_csv_text (records : list movie) :
  read_csv (csv_text records)
  = Some (fieldnames :: map dict_to_list records).
Proof.
  unfold read_csv, csv_text. rewrite read_all_rows; [reflexivity|].
  intros fields [<- | Hin]; [discriminate|].
  apply in_map_iff in Hin. destruct Hin as (m & <- & _). discriminate.
Qed.

Lemma dict_to_list_map_injective (l1 l2 : list movie) :
  map dict_to_list l1 = map dict_to_list l2 -> l1 = l2.
Proof.
  revert l2. induction l1 as [|m l1 IH]; intros [|m' l2]; cbn [map];
    intros H; try discriminate; [reflexivity|].
  destruct m, m'. unfold dict_to_list in H at 1 3. cbn in H.
  injection H; intros; subst. f_equal. now apply IH.
Qed.

Lemma saved_text (records : list movie) (filename : string) (d : disk) :
  records <> [] -> denied d filename = None ->
  files (fst (save_to_csv records filename d)) filename
  = Some (csv_text records).
Proof.
  intros Hne Hopen. unfold save_to_csv, csv_text.
  destruct records as [|m records]; [congruence|]. rewrite Hopen.
  cbn [fst write_file files]. rewrite String.eqb_refl.
  change (map Csv.format_row (fieldnames :: map dict_to_list (m :: records)))
    with (Csv.format_row fieldnames
          :: map Csv.format_row (map dict_to_list (m :: records))).
  now rewrite join_empty_cons, map_map.
Qed.

(** X8: the file that [save_to_csv] writes can be read back: reading it
    gives the header and then the four fields of every record, in order,
    whatever commas, quotes or line breaks the fields hold; so two lists of
    records written as the same text are the same list. *)
Theorem saved_file_determines_records (records records' : list movie)
    (filename : string) (d d' : disk) :
  records <> [] -> denied d filename = None ->
  (exists text,
      files (fst (save_to_csv records filename d)) filename = Some text
      /\ read_csv text = Some (fieldnames :: map dict_to_list records))
  /\ (records' <> [] -> denied d' filename = None ->
      files (fst (save_to_csv records' filename d')) filename
      = files (fst (save_to_csv records filename d)) filename ->
      records' = records).
Proof.
  intros Hne Hopen. split.
  - exists (csv_text records). split; [now apply saved_text|].
    apply read_csv_text.
  - intros Hne' Hopen' Heq.
    rewrite !saved_text in Heq by assumption. inversion Heq as [Htext].
    pose proof (read_csv_text records') as H1. rewrite Htext in H1.
    rewrite read_csv_text in H1. inversion H1 as [Hmap].
    symmetry. now apply dict_to_list_map_injective.
Qed.

(** ** main *)

Lemma save_to_csv_other_files (records : list movie) (filename f : string)
    (d : disk) :
  f <> filename ->
  files (fst (save_to_csv records filename d)) f = files d f.
Proof.
  intros Hf. unfold save_to_csv. destruct records; [reflexivity|].
  destruct (denied d filename); [reflexivity|].
  cbn [fst write_file files]. apply String.eqb_neq in Hf. now rewrite Hf.
Qed.

Lemma save_to_csv_nothing (records : list movie) (filename : string)
    (d : disk) :
  records = [] \/ denied d filename <> None ->
  fst (save_to_csv records filename d) = d.
Proof.
  unfold save_to_csv. intros [-> | Hd]; [reflexivity|].
  destruct records; [reflexivity|].
  destruct (denied d filename); [reflexivity | congruence].
Qed.

Lemma sample_names_app (l1 l2 : list output) :
  sample_names (l1 ++ l2) = sample_names l1 ++ sample_names l2.
Proof. unfold sample_names. apply flat_map_app. Qed.

Lemma sample_names_calls (evs : list event) :
  sample_names (map FromCall evs) = [].
Proof. induction evs; [reflexivity | assumption]. Qed.

Lemma sample_names_lines (entries : list (Z * movie)) :
  sample_names (map FromMain (flat_map sample_lines entries))
  = map (fun e => (fst e, name (snd e))) entries.
Proof.
  induction entries as [|[i m] entries IH]; [reflexivity|].
  simpl. now rewrite <- IH.
Qed.

Lemma sample_names_header (l : list main_message) :
  sample_names (map FromMain ([MsgSampleHeader; MsgDashes] ++ l))
  = sample_names (map FromMain l).
Proof. reflexivity. Qed.

Lemma totals_printed_app (l1 l2 : list output) :
  totals_printed (l1 ++ l2) = totals_printed l1 ++ totals_printed l2.
Proof. unfold totals_printed. apply flat_map_app. Qed.

Lemma totals_printed_calls (evs : list event) :
  totals_printed (map FromCall evs) = [].
Proof. induction evs; [reflexivity | assumption]. Qed.

Lemma totals_printed_sample (l : list main_message) :
  (forall n, ~ In (MsgTotal n) l) -> totals_printed (map FromMain l) = [].
Proof.
  induction l as [|m l IH]; [reflexivity|]. intros H.
  assert (IH' : totals_printed (map FromMain l) = [])
    by (apply IH; intros n Hn; apply (H n); now right).
  destruct m; try exact IH'.
  exfalso. apply (H count). now left.
Qed.

Lemma sample_lines_no_total (entries : list (Z * movie)) (n : nat) :
  ~ In (MsgTotal n) (flat_map sample_lines entries).
Proof.
  induction entries as [|[i m] entries IH]; [intros []|].
  simpl. intros [H|[H|[H|[H|H]]]]; try discriminate. now apply IH.
Qed.

Lemma enumerate_first_three (l : list movie) :
  map (fun e => (fst e, name (snd e))) (enumerate 1 (firstn 3 l))
  = combine [1; 2; 3] (map name l).
Proof. destruct l as [|a [|b [|c l]]]; reflexivity. Qed.

(** X10: the sample that [main] prints shows the names of the first three
    records at most, in the order of the result and numbered from 1, and
    shows nothing when there is no record. *)
Theorem main_sample_is_first_three (web : string -> render) (d : disk) :
  let records :=
    flat_map (fun p => page_records (web (page_url p))) (range 1 11) in
  sample_names (snd (fst (main web d)))
  = combine [1; 2; 3] (map name records).
Proof.
  intros records. unfold main.
  destruct (scrape_movies_run_spec web 10) as (st & Hrun & Hm & _).
  change (10 + 1) with 11 in Hm. fold records in Hm.
  rewrite Hrun, Hm.
  destruct (save_to_csv records "movie.csv" d) as [d' saved].
  cbn [fst snd].
  rewrite !sample_names_app, !sample_names_calls.
  change (sample_names [FromMain MsgRule; FromMain MsgTitle; FromMain MsgRule])
    with (@nil (Z * string)).
  change (sample_names
            [FromMain MsgRuleAfterBlank; FromMain (MsgTotal (length records));
             FromMain MsgRule])
    with (@nil (Z * string)).
  cbn [app]. destruct records as [|m records']; [reflexivity|].
  change (MsgSampleHeader :: MsgDashes
          :: flat_map sample_lines (enumerate 1 (firstn 3 (m :: records'))))
    with ([MsgSampleHeader; MsgDashes]
          ++ flat_map sample_lines (enumerate 1 (firstn 3 (m :: records')))).
  rewrite sample_names_header, sample_names_lines.
  apply enumerate_first_three.
Qed.

(** ** Remaining cases of a page and of a source *)

Lemma startswith_http_base : Str.startswith "http" BASE_URL = true.
Proof. reflexivity. Qed.

Lemma startswith_http_https (rest : string) :
  Str.startswith "http" ("https:" +++ rest) = true.
Proof. reflexivity. Qed.

(** X12: the image URL of a record begins with http, or it is the source
    exactly as the markup has it; it is never empty. *)
Theorem image_url_is_http_or_source (item : Node) (st : state) (r : movie) :
  movies (exec (item_iteration item) st) = movies st ++ [r] ->
  (Str.startswith "http" (image_url r) = true
   \/ img_src item = Some (image_url r))
  /\ Str.nonempty (image_url r) = true.
Proof.
  intros H. destruct (emitted_record _ _ _ H) as (u & Hi & Hu & ->). simpl.
  unfold image_of in Hi. destruct (img_src item) as [src|] eqn:Hsrc.
  2:{ inversion Hi; subst. discriminate. }
  destruct (Str.nonempty src) eqn:Hne.
  2:{ inversion Hi; subst. discriminate. }
  destruct (Str.startswith "http" src) eqn:Hp; simpl in Hi.
  - inversion Hi; subst. auto.
  - destruct (urljoin_base_cases _ _ Hi) as [-> | [-> | (rest & ->)]].
    + auto.
    + split; [left; apply startswith_http_base | reflexivity].
    + split; [left; apply startswith_http_https | reflexivity].
Qed.

(** ** Trimming, on the side of the statements *)

Lemma lstrip_decompose (p : ascii -> bool) (s : string) :
  exists a, s = a +++ Str.lstrip_by p s /\ Str.forallb p a = true.
Proof.
  induction s as [|c r (a & Ha & Hp)]; [now exists ""|].
  simpl. destruct (p c) eqn:Hc.
  - exists (String c a). simpl. rewrite Hc, Hp. split; [now f_equal | reflexivity].
  - now exists "".
Qed.

Lemma rstrip_decompose (p : ascii -> bool) (s : string) :
  exists b, s = Str.rstrip_by p s +++ b /\ Str.forallb p b = true.
Proof.
  induction s as [|c r (b & Hb & Hp)]; [now exists ""|].
  simpl. destruct (Str.rstrip_by p r) as [|c' r'] eqn:Hr.
  - simpl in Hb. subst r. destruct (p c) eqn:Hc.
    + exists (String c b). simpl. now rewrite Hc, Hp.
    + now exists b.
  - exists b. split; [|exact Hp]. simpl. now f_equal.
Qed.

Lemma strip_trimmed (s : string) : trimmed_of s (Str.strip s).
Proof.
  destruct (lstrip_decompose Str.isspace s) as (a & Ha & Hpa).
  destruct (rstrip_decompose Str.isspace (Str.lstrip_by Str.isspace s))
    as (b & Hb & Hpb).
  destruct (strip_clean s) as [Hs He].
  exists a, b. unfold Str.strip, Str.strip_by in *.
  repeat split; try assumption. now rewrite <- Hb.
Qed.

Lemma lstrip_spaces (p : ascii -> bool) (a x : string) :
  Str.forallb p a = true -> Str.lstrip_by p (a +++ x) = Str.lstrip_by p x.
Proof.
  induction a as [|c a IH]; [reflexivity|]. simpl. intros H.
  apply andb_prop in H. destruct H as [Hc Ha]. now rewrite Hc, IH.
Qed.

Lemma rstrip_spaces (p : ascii -> bool) (b : string) :
  Str.forallb p b = true -> Str.rstrip_by p b = "".
Proof.
  induction b as [|c b IH]; [reflexivity|]. simpl. intros H.
  apply andb_prop in H. destruct H as [Hc Hb]. now rewrite (IH Hb), Hc.
Qed.

Lemma rstrip_clean_spaces (p : ascii -> bool) (t b : string) :
  ends_clean p t = true -> Str.forallb p b = true ->
  Str.rstrip_by p (t +++ b) = t.
Proof.
  intros Ht Hb. induction t as [|c t IH]; [now apply rstrip_spaces|].
  destruct t as [|c' t'].
  - simpl in *. rewrite (rstrip_spaces _ _ Hb).
    apply negb_true_iff in Ht. now rewrite Ht.
  - change (ends_clean p (String c' t') = true) in Ht.
    change (Str.rstrip_by p (String c (String c' t') +++ b))
      with (match Str.rstrip_by p (String c' t' +++ b) with
            | EmptyString => if p c then EmptyString else String c EmptyString
            | r0 => String c r0
            end).
    now rewrite (IH Ht).
Qed.

(** The trimming of a text is what [strip] returns, and nothing else. *)
Lemma trimmed_strip (s t : string) : trimmed_of s t -> Str.strip s = t.
Proof.
  intros (a & b & -> & Ha & Hb & Hs & He).
  unfold Str.strip, Str.strip_by. rewrite (lstrip_spaces _ _ _ Ha).
  destruct t as [|c t'].
  - simpl. rewrite <- (append_nil_r b) at 1.
    rewrite (lstrip_spaces _ _ _ Hb). reflexivity.
  - rewrite lstrip_clean by exact Hs. now apply rstrip_clean_spaces.
Qed.

Lemma Forall2_map_in {A B : Type} (R : A -> B -> Prop) (f : A -> B)
    (l : list A) :
  (forall x, In x l -> R x (f x)) -> Forall2 R l (map f l).
Proof.
  induction l as [|x l IH]; intros H; [constructor|].
  simpl. constructor; [apply H; now left|]. apply IH. intros y Hy.
  apply H. now right.
Qed.

Lemma get_text_strip_fragments (e : Node) :
  stripped_fragments (fragments e) (get_text_strip e).
Proof.
  exists (map Str.strip (fragments e)). split; [|reflexivity].
  apply Forall2_map_in. intros x _. apply strip_trimmed.
Qed.

Lemma single_fragment (e : Node) (s : string) :
  fragments e = [s] -> get_text e = s /\ get_text_strip e = Str.strip s.
Proof.
  intros H. unfold get_text, get_text_strip. fold (fragments e). rewrite H.
  split; [reflexivity|]. simpl. destruct (Str.strip s); reflexivity.
Qed.

Lemma single_fragment_trimmed (e : Node) :
  (exists s, fragments e = [s]) -> trimmed_of (get_text e) (get_text_strip e).
Proof.
  intros (s & Hs). destruct (single_fragment _ _ Hs) as [-> ->].
  apply strip_trimmed.
Qed.

(** C3, as the code has it: when the linked element has a [title]
    attribute that is present and not empty, the name is that attribute
    without its leading and trailing white space.  When the attribute is
    absent or empty, the name is made of the text fragments of the linked
    element, each without its leading and trailing white space and the
    empty ones left out, joined without separator; this is the trimmed text
    of the element when it has one text fragment.  Without a linked element
    the name is the sentinel. *)
Theorem name_fallback_chain (item : Node) (st : state) (r : movie) :
  movies (exec (item_iteration item) st) = movies st ++ [r] ->
  (forall e t,
      linked_element item = Some e -> get "title" e = Some t -> t <> "" ->
      name r = Str.strip t /\ trimmed_of t (name r))
  /\ (forall e,
        linked_element item = Some e ->
        get "title" e = None \/ get "title" e = Some "" ->
        name r = get_text_strip e
        /\ stripped_fragments (fragments e) (name r)
        /\ ((exists s, fragments e = [s]) ->
            trimmed_of (get_text e) (name r)))
  /\ (linked_element item = None -> name r = "N/A").
Proof.
  intros H. destruct (emitted_record _ _ _ H) as (u & _ & _ & ->). simpl.
  unfold name_of. split; [|split].
  - intros e t He Ht Hne. rewrite He, Ht.
    apply nonempty_true_iff in Hne. rewrite Hne.
    split; [reflexivity | apply strip_trimmed].
  - intros e He Ht. rewrite He.
    assert (Hn : match get "title" e with
                 | Some t => if Str.nonempty t then Str.strip t
                             else get_text_strip e
                 | None => get_text_strip e
                 end = get_text_strip e)
      by (destruct Ht as [-> | ->]; reflexivity).
    rewrite Hn. split; [reflexivity|].
    split; [apply get_text_strip_fragments | apply single_fragment_trimmed].
  - intros ->. reflexivity.
Qed.

(** C4, as the code has it: the genre joins with one space, in document
    order, one text for each category button of the item, all of them and
    not only the first.  The text of a button is made of its text
    fragments, each without its leading and trailing white space and the
    empty ones left out, joined without separator; it is the trimmed text
    of the button when the button has one text fragment.  Without such a
    button the genre is the sentinel, and two buttons whose labels trim to
    Drama and Crime give Drama Crime. *)
Theorem genre_joins_all_categories (item : Node) (st : state) (r : movie) :
  movies (exec (item_iteration item) st) = movies st ++ [r] ->
  let categories :=
    filter (matches "button" (Some "category")) (descendants item) in
  (categories = [] -> genre r = "N/A")
  /\ (categories <> [] ->
      exists texts,
        Forall2 (fun e t => stripped_fragments (fragments e) t)
          categories texts
        /\ genre r = Str.join " " texts)
  /\ (categories <> [] ->
      (forall e, In e categories -> exists s, fragments e = [s]) ->
      exists texts,
        Forall2 (fun e t => trimmed_of (get_text e) t) categories texts
        /\ genre r = Str.join " " texts)
  /\ (forall d c,
        map fragments categories = [[d]; [c]] ->
        trimmed_of d "Drama" -> trimmed_of c "Crime" ->
        genre r = "Drama Crime").
Proof.
  intros H categories.
  destruct (emitted_record _ _ _ H) as (u & _ & _ & ->). simpl.
  unfold genre_of, find_all. fold categories.
  repeat split.
  - intros ->. reflexivity.
  - intros Hne. exists (map get_text_strip categories). split.
    + apply Forall2_map_in. intros e _. apply get_text_strip_fragments.
    + destruct categories; [congruence | reflexivity].
  - intros Hne Hone. exists (map get_text_strip categories). split.
    + apply Forall2_map_in. intros e He.
      apply single_fragment_trimmed. now apply Hone.
    + destruct categories; [congruence | reflexivity].
  - intros d c Hmap Hd Hc.
    destruct categories as [|e1 [|e2 [|e3 l]]]; try discriminate.
    cbn [map] in Hmap. injection Hmap as H1 H2.
    destruct (single_fragment _ _ H1) as [_ Ht1].
    destruct (single_fragment _ _ H2) as [_ Ht2].
    cbn [map]. rewrite Ht1, Ht2, (trimmed_strip _ _ Hd), (trimmed_strip _ _ Hc).
    reflexivity.
Qed.

(** ** main and the page without container *)

Lemma saved_messages (records : list movie) (filename : string) (d : disk) :
  snd (save_to_csv records filename d)
  = match records, denied d filename with
    | [], _ => [Print MsgNoMovies]
    | _, Some msg => [Print (MsgSaveError (IOError msg))]
    | _, None => [Print (MsgSaved (length records) filename)]
    end.
Proof.
  unfold save_to_csv. destruct records; [reflexivity|].
  destruct (denied d filename); reflexivity.
Qed.

(** X9: [main] returns normally and prints as total the number of records
    of pages 1 to 10.  When there is a record and movie.csv can be opened,
    movie.csv holds afterwards the header and one row for each of these
    records, and the saving is reported with their number; when it cannot
    be opened, the error is reported; when there is no record, this is
    reported and no sample is shown. *)
Theorem main_saves_what_was_scraped (web : string -> render) (d : disk) :
  let records :=
    flat_map (fun p => page_records (web (page_url p))) (range 1 11) in
  exists d' out,
    main web d = (d', out, Ok tt)
    /\ totals_printed out = [length records]
    /\ (records <> [] -> denied d "movie.csv" = None ->
        files d' "movie.csv" = Some (csv_text records)
        /\ In (FromCall (Print (MsgSaved (length records) "movie.csv"))) out)
    /\ (forall msg,
          records <> [] -> denied d "movie.csv" = Some msg ->
          In (FromCall (Print (MsgSaveError (IOError msg)))) out)
    /\ (records = [] ->
        In (FromCall (Print MsgNoMovies)) out /\ sample_names out = []).
Proof.
  intros records. unfold main.
  destruct (scrape_movies_run_spec web 10) as (st & Hrun & Hm & _).
  change (10 + 1) with 11 in Hm. fold records in Hm.
  rewrite Hrun, Hm.
  destruct (save_to_csv records "movie.csv" d) as [d' saved] eqn:Hsave.
  assert (Hd' : d' = fst (save_to_csv records "movie.csv" d))
    by now rewrite Hsave.
  assert (Hsaved : saved = snd (save_to_csv records "movie.csv" d))
    by now rewrite Hsave.
  rewrite saved_messages in Hsaved.
  assert (Hin : forall e, saved = [Print e] ->
                In (FromCall (Print e))
                  ([FromMain MsgRule; FromMain MsgTitle; FromMain MsgRule]
                   ++ map FromCall (events st)
                   ++ [FromMain MsgRuleAfterBlank;
                       FromMain (MsgTotal (length records)); FromMain MsgRule]
                   ++ map FromCall saved
                   ++ map FromMain
                        match records with
                        | [] => []
                        | _ :: _ =>
                            [MsgSampleHeader; MsgDashes]
                            ++ flat_map sample_lines
                                 (enumerate 1 (firstn 3 records))
                        end)).
  { intros e ->. apply in_or_app. right. apply in_or_app. right.
    apply in_or_app. right. apply in_or_app. left. now left. }
  eexists; eexists. split; [reflexivity|].
  split; [|split; [|split]].
  - rewrite !totals_printed_app, !totals_printed_calls.
    rewrite totals_printed_sample; [reflexivity|].
    intros n. destruct records; [intros []|].
    intros [H|[H|H]]; try discriminate.
    now apply sample_lines_no_total in H.
  - intros Hne Hopen. split; [rewrite Hd'; now apply saved_text|].
    apply Hin. rewrite Hsaved, Hopen. destruct records; [congruence|].
    reflexivity.
  - intros msg Hne Hden. apply Hin. rewrite Hsaved, Hden.
    destruct records; [congruence|]. reflexivity.
  - intros Hnil. split.
    + apply Hin. rewrite Hsaved, Hnil. reflexivity.
    + rewrite Hnil, !sample_names_app, !sample_names_calls. reflexivity.
Qed.

(** X11: a page on which the wait succeeds, because some element has the
    class item, and that has no item container, because no [div] has it, is
    not an error: the warning is printed, no record is added, the pause is
    kept unless the page is the last one, and the session is closed. *)
Theorem page_without_items (web : string -> render) (num_pages p : Z)
    (soup : Node) (st : state) :
  web (page_url p) = Rendered soup ->
  class_present "item" soup = true ->
  find_all "div" (Some "item") soup = [] ->
  exists st',
    page_iteration web num_pages p st = (st', Ok tt)
    /\ movies st' = movies st
    /\ events st' =
       events st
       ++ [Print (MsgScraping p (page_url p)); InitDriver;
           DriverGet (page_url p); Print (MsgNoItems p)]
       ++ (if p <? num_pages then [Sleep 1] else [])
       ++ [DriverQuit].
Proof.
  intros Hweb _ Hitems.
  destruct (page_iteration_run web num_pages p st) as (st' & Hrun & Hm & He).
  exists st'. split; [exact Hrun|].
  unfold page_records, extract in Hm. unfold page_events in He.
  rewrite Hweb, Hitems in *. simpl in Hm, He. rewrite app_nil_r in Hm.
  split; [exact Hm|]. rewrite He. reflexivity.
Qed.

End Properties.

(** * Instances

    The statements above at sample markup, with a validation that accepts
    every host. *)

Lemma image_is_inclusion_gate_witness :
  scrape_movies (HV := lenient_validation) sample_web 2
  = Ok [record_relative; record_absolute; record_bare]
  /\ image_url record_absolute <> "N/A"
  /\ movies (exec (item_iteration (HV := lenient_validation) card_no_image)
               initial_state) = [].
Proof.
  split; [reflexivity|]. split.
  - apply (proj1 (image_is_inclusion_gate (HV := lenient_validation)
                    sample_web 2)
             [record_relative; record_absolute; record_bare]);
      [reflexivity | right; left; reflexivity].
  - apply (proj2 (image_is_inclusion_gate (HV := lenient_validation)
                    sample_web 2) card_no_image initial_state).
    left. reflexivity.
Defined.

Lemma image_url_resolution_witness :
  img_src card_relative = Some "/img/x.jpg"
  /\ image_url record_relative = "https://ssr1.scrape.center/img/x.jpg".
Proof.
  split; [reflexivity|].
  apply (proj2 (proj2 (image_url_resolution (HV := lenient_validation)
                         card_relative initial_state "/img/x.jpg"
                         record_relative eq_refl eq_refl))).
  reflexivity.
Defined.

(** C2 as stated fails: [http.jpg] is a relative reference, its resolution
    against the base URL is another string, and the record keeps the
    reference as it is. *)
Lemma http_prefixed_reference_not_resolved :
  is_relative_reference (HV := lenient_validation) "http.jpg" = true
  /\ Urllib.urljoin (HV := lenient_validation) BASE_URL "http.jpg"
     = Ok "https://ssr1.scrape.center/http.jpg"
  /\ map image_url
       (movies (exec (item_iteration (HV := lenient_validation) card_http_file)
                  initial_state))
     = ["http.jpg"].
Proof. repeat split; reflexivity. Qed.

Lemma rating_empty_is_not_sentinel_witness :
  find "p" (Some "score") card_absolute = Some (score_element "  ")
  /\ get_text_strip (score_element "  ") = ""
  /\ rating record_absolute = ""
  /\ rating record_absolute <> "N/A".
Proof.
  split; [reflexivity|]. split; [reflexivity|].
  apply (proj2 (proj1 (rating_empty_is_not_sentinel (HV := lenient_validation)
                         card_absolute initial_state record_absolute eq_refl)
                  (score_element "  ") eq_refl)).
  reflexivity.
Defined.

Lemma item_fields_share_one_guard_witness :
  snd (extract_image_url (HV := lenient_validation) card_bad_url initial_state)
  = Raise (ValueError "Invalid IPv6 URL")
  /\ movies (exec (item_iteration (HV := lenient_validation) card_bad_url)
                initial_state) = [].
Proof.
  split; [reflexivity|].
  apply (proj1 (item_fields_share_one_guard (HV := lenient_validation)
                  card_bad_url initial_state)
           (ValueError "Invalid IPv6 URL")
           (fst (extract_image_url (HV := lenient_validation) card_bad_url
                   initial_state))).
  reflexivity.
Defined.

(** C6 as stated fails: for this item the image block faults; name, rating
    and genre would each be extracted if their blocks ran, and none of them
    is. *)
Lemma image_fault_aborts_other_fields :
  snd (extract_image_url (HV := lenient_validation) card_bad_url initial_state)
  = Raise (ValueError "Invalid IPv6 URL")
  /\ l_movie_name (exec (extract_movie_name card_bad_url) initial_state)
     = Some "Farewell"
  /\ l_rating (exec (extract_rating card_bad_url) initial_state) = Some "9.5"
  /\ l_genre (exec (extract_genre card_bad_url) initial_state)
     = Some "Drama Crime"
  /\ l_movie_name
       (exec (item_iteration (HV := lenient_validation) card_bad_url)
          initial_state) = None
  /\ l_rating
       (exec (item_iteration (HV := lenient_validation) card_bad_url)
          initial_state) = None
  /\ l_genre
       (exec (item_iteration (HV := lenient_validation) card_bad_url)
          initial_state) = None
  /\ movies
       (exec (item_iteration (HV := lenient_validation) card_bad_url)
          initial_state) = [].
Proof. repeat split; reflexivity. Qed.

Lemma item_fault_skips_only_that_item_witness :
  snd (item_body (HV := lenient_validation) card_bad_url initial_state)
  = Raise (ValueError "Invalid IPv6 URL")
  /\ exists st',
      for_each ([card_relative] ++ card_bad_url :: [card_bare])
        (item_iteration (HV := lenient_validation)) initial_state
      = (st', Ok tt)
      /\ movies st' =
         movies initial_state
         ++ flat_map (item_records (HV := lenient_validation)) [card_relative]
         ++ flat_map (item_records (HV := lenient_validation)) [card_bare]
      /\ movies st' =
         movies (exec (for_each ([card_relative] ++ [card_bare])
                         (item_iteration (HV := lenient_validation)))
                   initial_state)
      /\ In (Print (MsgItemError (ValueError "Invalid IPv6 URL")))
           (events st').
Proof.
  split; [reflexivity|].
  apply (item_fault_skips_only_that_item (HV := lenient_validation)
           [card_relative] [card_bare] card_bad_url initial_state
           initial_state (ValueError "Invalid IPv6 URL")).
  reflexivity.
Defined.

Lemma render_failure_is_contained_witness :
  sample_web (page_url 1) = Rendered sample_page
  /\ render_failed (sample_web (page_url 2)) = true
  /\ exists ms,
      scrape_movies (HV := lenient_validation) sample_web 2 = Ok ms
      /\ ms = extract (HV := lenient_validation) sample_page
      /\ length ms = 3%nat.
Proof.
  split; [reflexivity|]. split; [reflexivity|].
  apply (proj1 (proj2 (render_failure_is_contained (HV := lenient_validation)
                         sample_web)) sample_page);
    reflexivity.
Defined.

Lemma pages_iterated_in_order_witness :
  (-3 <= 0)
  /\ scrape_movies_run (HV := lenient_validation) sample_web (-3)
     = (initial_state, Ok []).
Proof.
  split; [lia|].
  apply (proj2 (proj2 (pages_iterated_in_order (HV := lenient_validation)
                         sample_web (-3)))).
  lia.
Defined.

Lemma save_to_csv_output_witness :
  [record_relative; record_absolute] <> []
  /\ denied empty_disk "movie.csv" = None
  /\ exists text,
      files (fst (save_to_csv [record_relative; record_absolute] "movie.csv"
                    empty_disk)) "movie.csv" = Some text
      /\ text =
         Str.join ""
           (map Csv.format_row
              (fieldnames
               :: map dict_to_list [record_relative; record_absolute]))
      /\ hd_error (lines text) = Some "name,image_url,rating,genre"
      /\ (forallb fields_on_one_line [record_relative; record_absolute] = true
          -> length (lines text)
             = (length [record_relative; record_absolute] + 1)%nat)
      /\ snd (save_to_csv [record_relative; record_absolute] "movie.csv"
                empty_disk)
         = [Print (MsgSaved (length [record_relative; record_absolute])
                     "movie.csv")].
Proof.
  split; [discriminate|]. split; [reflexivity|].
  apply (proj1 (save_to_csv_output [record_relative; record_absolute]
                  "movie.csv" empty_disk));
    [discriminate | reflexivity].
Defined.

(** C8 as stated fails: the title attribute of this item is written on two
    lines, the run returns one record, and the file written for it has
    three lines, not two. *)
Lemma multi_line_field_adds_lines :
  movies (exec (item_iteration (HV := lenient_validation) card_two_line_title)
            initial_state) = [record_two_line_title]
  /\ option_map (fun text => length (lines text))
       (files (fst (save_to_csv [record_two_line_title] "movie.csv"
                      empty_disk)) "movie.csv")
     = Some 3%nat
  /\ (length [record_two_line_title] + 1 = 2)%nat.
Proof. repeat split; reflexivity. Qed.

Lemma name_and_rating_are_stripped_witness :
  movies (exec (item_iteration (HV := lenient_validation) card_bare)
            initial_state) = movies initial_state ++ [record_bare]
  /\ Str.strip (name record_bare) = name record_bare
  /\ Str.strip (rating record_bare) = rating record_bare.
Proof.
  split; [reflexivity|].
  apply (proj1 (name_and_rating_are_stripped (HV := lenient_validation)
                  card_bare initial_state record_bare eq_refl)).
Defined.

Lemma rooted_path_is_appended_to_base_witness :
  img_src card_relative = Some "/img/x.jpg"
  /\ rooted_path "/img/x.jpg" = true
  /\ movies (exec (item_iteration (HV := lenient_validation) card_relative)
                initial_state)
     = movies initial_state
       ++ [mkMovie (name_of card_relative) (BASE_URL +++ "/img/x.jpg")
             (rating_of card_relative) (genre_of card_relative)].
Proof.
  split; [reflexivity|]. split; [reflexivity|].
  apply (rooted_path_is_appended_to_base (HV := lenient_validation)
           card_relative initial_state "/img/x.jpg");
    reflexivity.
Defined.

Lemma saved_file_determines_records_witness :
  [record_two_line_title; record_relative] <> []
  /\ denied empty_disk "movie.csv" = None
  /\ exists text,
      files (fst (save_to_csv [record_two_line_title; record_relative]
                    "movie.csv" empty_disk)) "movie.csv" = Some text
      /\ read_csv text
         = Some (fieldnames
                 :: map dict_to_list [record_two_line_title; record_relative]).
Proof.
  split; [discriminate|]. split; [reflexivity|].
  apply (proj1 (saved_file_determines_records
                  [record_two_line_title; record_relative] []
                  "movie.csv" empty_disk empty_disk
                  ltac:(discriminate) eq_refl)).
Defined.

Lemma image_url_is_http_or_source_witness :
  movies (exec (item_iteration (HV := lenient_validation) card_http_file)
            initial_state)
  = movies initial_state ++ [mkMovie "Farewell" "http.jpg" "9.5" "Drama"]
  /\ (Str.startswith "http" "http.jpg" = true
      \/ img_src card_http_file = Some "http.jpg")
  /\ Str.nonempty "http.jpg" = true.
Proof.
  split; [reflexivity|].
  apply (image_url_is_http_or_source (HV := lenient_validation)
           card_http_file initial_state
           (mkMovie "Farewell" "http.jpg" "9.5" "Drama")).
  reflexivity.
Defined.

Lemma name_fallback_chain_witness :
  linked_element card_padded = Some (title_link "  Farewell ")
  /\ get "title" (title_link "  Farewell ") = Some "  Farewell "
  /\ name record_padded = "Farewell"
  /\ trimmed_of "  Farewell " (name record_padded).
Proof.
  split; [reflexivity|]. split; [reflexivity|].
  apply (proj1 (name_fallback_chain (HV := lenient_validation)
                  card_padded initial_state record_padded eq_refl)
           (title_link "  Farewell ") "  Farewell ");
    [reflexivity | reflexivity | discriminate].
Defined.

(** C3 as stated fails twice.  A [title] attribute that is present and
    empty does not give the name: the name is the text of the link.  And the
    text of a link in several fragments is not its trimmed text: the white
    space between the fragments is lost. *)
Lemma name_is_neither_empty_title_nor_trimmed_text :
  (linked_element card_absolute = Some (title_link "")
   /\ get "title" (title_link "") = Some ""
   /\ trimmed_of "" ""
   /\ map name
        (movies (exec (item_iteration (HV := lenient_validation)
                         card_absolute) initial_state))
      = ["Farewell My Concubine"])
  /\ (linked_element card_split_link = Some split_link
      /\ get "title" split_link = None
      /\ get_text split_link = "Farewell (1993)"
      /\ trimmed_of (get_text split_link) "Farewell (1993)"
      /\ map name
           (movies (exec (item_iteration (HV := lenient_validation)
                            card_split_link) initial_state))
         = ["Farewell(1993)"]).
Proof.
  repeat split; try reflexivity; exists "", ""; repeat split; reflexivity.
Qed.

Lemma genre_joins_all_categories_witness :
  map fragments
    (filter (matches "button" (Some "category")) (descendants card_padded))
  = [[" Drama "]; ["Crime  "]]
  /\ trimmed_of " Drama " "Drama"
  /\ trimmed_of "Crime  " "Crime"
  /\ genre record_padded = "Drama Crime".
Proof.
  assert (Hd : trimmed_of " Drama " "Drama")
    by (exists " ", " "; repeat split; reflexivity).
  assert (Hc : trimmed_of "Crime  " "Crime")
    by (exists "", "  "; repeat split; reflexivity).
  split; [reflexivity|]. split; [exact Hd|]. split; [exact Hc|].
  exact (proj2 (proj2 (proj2 (genre_joins_all_categories
                                (HV := lenient_validation) card_padded
                                initial_state record_padded eq_refl)))
           " Drama " "Crime  " eq_refl Hd Hc).
Defined.

(** C4 as stated fails: the label of this category button is in several
    fragments, its trimmed text keeps the white space between them, and the
    genre does not. *)
Lemma split_label_is_not_trimmed_text :
  filter (matches "button" (Some "category")) (descendants card_split_category)
  = [split_button]
  /\ get_text split_button = "Sci  Fi"
  /\ trimmed_of (get_text split_button) "Sci  Fi"
  /\ map genre
       (movies (exec (item_iteration (HV := lenient_validation)
                        card_split_category) initial_state))
     = ["SciFi"].
Proof.
  repeat split; try reflexivity; exists "", ""; repeat split; reflexivity.
Qed.

Lemma gate_drops_only_items_without_source_witness :
  (has_source card_relative = true
   /\ ((exists r,
          movies (exec (item_iteration (HV := lenient_validation)
                          card_relative) initial_state)
          = movies initial_state ++ [r]
          /\ events (exec (item_iteration (HV := lenient_validation)
                             card_relative) initial_state)
             = events initial_state
               ++ [Print (MsgFound (name r) (rating r))])
       \/ (exists e,
             movies (exec (item_iteration (HV := lenient_validation)
                             card_relative) initial_state)
             = movies initial_state
             /\ events (exec (item_iteration (HV := lenient_validation)
                                card_relative) initial_state)
                = events initial_state ++ [Print (MsgItemError e)])))
  /\ (has_source card_bad_url = true
      /\ ((exists r,
             movies (exec (item_iteration (HV := lenient_validation)
                             card_bad_url) initial_state)
             = movies initial_state ++ [r]
             /\ events (exec (item_iteration (HV := lenient_validation)
                                card_bad_url) initial_state)
                = events initial_state
                  ++ [Print (MsgFound (name r) (rating r))])
          \/ (exists e,
                movies (exec (item_iteration (HV := lenient_validation)
                                card_bad_url) initial_state)
                = movies initial_state
                /\ events (exec (item_iteration (HV := lenient_validation)
                                   card_bad_url) initial_state)
                   = events initial_state ++ [Print (MsgItemError e)])))
  /\ (has_source card_second_image = false
      /\ movies (exec (item_iteration (HV := lenient_validation)
                         card_second_image) initial_state)
         = movies initial_state
      /\ events (exec (item_iteration (HV := lenient_validation)
                         card_second_image) initial_state)
         = events initial_state).
Proof.
  split; [|split].
  - split; [reflexivity|].
    exact (proj1 (gate_drops_only_items_without_source
                    (HV := lenient_validation) card_relative initial_state)
             eq_refl).
  - split; [reflexivity|].
    exact (proj1 (gate_drops_only_items_without_source
                    (HV := lenient_validation) card_bad_url initial_state)
             eq_refl).
  - split; [reflexivity|].
    exact (proj2 (gate_drops_only_items_without_source
                    (HV := lenient_validation) card_second_image
                    initial_state)
             eq_refl).
Defined.

Lemma main_saves_what_was_scraped_witness :
  denied empty_disk "movie.csv" = None
  /\ exists d' out,
      main (HV := lenient_validation) sample_web empty_disk = (d', out, Ok tt)
      /\ totals_printed out = [3%nat]
      /\ files d' "movie.csv"
         = Some (csv_text [record_relative; record_absolute; record_bare])
      /\ In (FromCall (Print (MsgSaved 3 "movie.csv"))) out.
Proof.
  split; [reflexivity|].
  destruct (main_saves_what_was_scraped (HV := lenient_validation)
              sample_web empty_disk)
    as (d' & out & Hmain & Htotal & Hfile & _).
  exists d', out. split; [exact Hmain|]. split; [exact Htotal|].
  apply Hfile; [discriminate | reflexivity].
Defined.

Lemma page_without_items_witness :
  empty_web (page_url 2) = Rendered empty_page
  /\ class_present "item" empty_page = true
  /\ find_all "div" (Some "item") empty_page = []
  /\ exists st',
      page_iteration (HV := lenient_validation) empty_web 2 2 initial_state
      = (st', Ok tt)
      /\ movies st' = movies initial_state
      /\ events st' =
         events initial_state
         ++ [Print (MsgScraping 2 (page_url 2)); InitDriver;
             DriverGet (page_url 2); Print (MsgNoItems 2)]
         ++ (if 2 <? 2 then [Sleep 1] else [])
         ++ [DriverQuit].
Proof.
  split; [reflexivity|]. split; [reflexivity|]. split; [reflexivity|].
  apply (page_without_items (HV := lenient_validation) empty_web 2 2
           empty_page initial_state);
    reflexivity.
Defined.
